(** * A shallow embedding of examples/nlp/ner.py

    The script is straight-line glue over an external framework.  We model:
    - Python's int true division [a / b] (correctly rounded to binary64, as
      CPython's [long_true_divide] does), [int(x)] and [math.ceil(x)];
    - the script itself as a computation in a small trace-and-exception
      monad: every framework call is an event of the trace, and the
      environment decides whether that call raises. *)

From Stdlib Require Import ZArith Lia List Ascii String Bool PrimFloat.
Set Warnings "-inexact-float".
Import ListNotations.
Open Scope Z_scope.

(** ** Python exceptions that the script can raise or see *)

Inductive exn : Type :=
| FileNotFoundError (msg : string)
| ValueError (msg : string)
| ModuleNotFoundError (msg : string)
| ZeroDivisionError (msg : string)
| OverflowError (msg : string)
| OtherError (name msg : string).

Definition is_ModuleNotFoundError (x : exn) : bool :=
  match x with ModuleNotFoundError _ => true | _ => false end.

(** ** Binary64 results of int true division

    A Python float produced by [int / int] is finite; we keep it as
    [fmant * 2 ^ fexp] with an integer mantissa. *)

Record pyfloat : Type := PyFloat { fmant : Z; fexp : Z }.

(** Round [num / den] (with [0 <= num], [0 < den]) to the nearest integer,
    ties to even. *)
Definition round_half_even (num den : Z) : Z :=
  let q := num / den in
  let r := num mod den in
  match Z.compare (2 * r) den with
  | Lt => q
  | Gt => q + 1
  | Eq => if Z.even q then q else q + 1
  end.

(** Binary exponent [E] of the quotient: [2^E <= n / d < 2^(E+1)], for
    [0 < n] and [0 < d]. *)
Definition quot_exp (n d : Z) : Z :=
  let a := Z.log2 n in
  let c := Z.log2 d in
  if d * 2 ^ a <=? n * 2 ^ c then a - c else a - c - 1.

(** Exponent of the last mantissa bit: 53 significant bits, or the
    subnormal quantum [2^-1074]. *)
Definition ulp_exp (n d : Z) : Z := Z.max (quot_exp n d - 52) (-1074).

(** Correctly rounded magnitude of [n / d] as mantissa and exponent. *)
Definition mag_div (n d : Z) : Z * Z :=
  let e := ulp_exp n d in
  if e <? 0 then (round_half_even (n * 2 ^ (- e)) d, e)
  else (round_half_even n (d * 2 ^ e), e).

(** [n / d] on Python ints: [ZeroDivisionError] on a zero divisor,
    [OverflowError] when the rounded result is not a finite float. *)
Definition py_truediv (n d : Z) : exn + pyfloat :=
  if d =? 0 then inl (ZeroDivisionError "division by zero")
  else if n =? 0 then inr (PyFloat 0 0)
  else
    let '(m, e) := mag_div (Z.abs n) (Z.abs d) in
    if (0 <=? e) && (2 ^ 1024 <=? m * 2 ^ e)
    then inl (OverflowError "integer division result too large for a float")
    else inr (PyFloat (if xorb (n <? 0) (d <? 0) then - m else m) e).

(** [int(x)] on a finite float: truncation toward zero. *)
Definition py_int (x : pyfloat) : Z :=
  if 0 <=? fexp x then fmant x * 2 ^ fexp x
  else Z.quot (fmant x) (2 ^ (- fexp x)).

(** [math.ceil(x)] on a finite float. *)
Definition py_ceil (x : pyfloat) : Z :=
  if 0 <=? fexp x then fmant x * 2 ^ fexp x
  else - ((- fmant x) / 2 ^ (- fexp x)).

(** ** Command-line arguments (lines 18-39) *)

Record args : Type := Args {
  local_rank : option Z;
  batch_size : Z;
  num_gpus : Z;
  num_epochs : Z;
  lr_warmup_proportion : float;
  lr : float;
  weight_decay : float;
  optimizer_kind : string;
  mixed_precision : bool;
  lr_policy : string;
  pretrained_bert_model : string;
  data_dir : string;
  classification_dropout : float;
  max_seq_length : Z;
  output_filename : string;
  tensorboard_filename : string;
  bert_checkpoint : option string;
  bert_config : option string }.

Open Scope string_scope.

Definition default_args : args :=
  Args None 32 1 1 0.1%float 5e-5%float 0%float "adam" false "lr_warmup"
    "bert-base-cased" "./conll2003" 0.1%float 128 "output.txt"
    "ner_tensorboard" None None.

(** [os.path.join(a, b)] for a relative [b]. *)
Definition ends_with_slash (a : string) : bool :=
  match String.get (pred (String.length a)) a with
  | Some c => Ascii.eqb c "/"%char
  | None => false
  end.

Definition path_join (a b : string) : string :=
  if String.eqb a "" then b
  else if ends_with_slash a then a ++ b
  else a ++ "/" ++ b.

(** Line 87 as a function of [tokenizer.vocab_size]. *)
Definition padded_vocab_size (v : Z) : exn + Z :=
  match py_truediv v 8 with
  | inl x => inl x
  | inr f => inr (8 * py_ceil f)
  end.

(** Line 157: [steps_per_epoch = int(train_data_size / (batch_size * num_gpus))]. *)
Definition steps_per_epoch (train_data_size batch_size num_gpus : Z)
  : exn + Z :=
  match py_truediv train_data_size (batch_size * num_gpus) with
  | inl x => inl x
  | inr q => inr (py_int q)
  end.

(** ** The external framework, as the script sees it *)

Inductive backend : Type := PyTorch.

(** [nemo.core.DeviceType] *)
Inductive device_type : Type := GPU | AllGpu | CPU.

(** [nemo.core.Optimization] *)
Inductive optimization : Type := mxprO0 | mxprO1 | mxprO2 | mxprO3.

(** Which of the two pipelines an object belongs to: the script binds it to
    [train_*] or to [eval_*] variables. *)
Inductive split : Type := Train | Eval.

(** The learning-rate policy objects of [nemo.utils.lr_policies]. *)
Inductive lr_schedule : Type :=
| WarmupAnnealing (total_steps : Z) (warmup_ratio : float)
| SquareAnnealing (total_steps : Z)
| CosineAnnealing (total_steps : Z).

(** One framework call, with the arguments the script passes. *)
Inductive call : Type :=
| CImportTensorboardX
| CSummaryWriter (logdir : string)
| CNeuralModuleFactory (b : backend) (local_rank : option Z)
    (optimization_level : optimization) (placement : device_type)
| CNemoBertTokenizer (pretrained_model : string)
| CSentencePieceTokenizer (model_path : string)
| CAddSpecialTokens (tokens : list string)
| CBertPretrained (pretrained_model_name : string)
| CBertFromConfig (config_filename : option string)
| CRestoreFrom (checkpoint : string)
| CBertNERDataLayer (s : split) (path_to_data : string) (max_seq_length : Z)
    (is_training : bool) (batch_size : Z) (shuffle : bool) (num_workers : Z)
    (local_rank : option Z)
| CTokenClassificationLoss (d_model num_labels : Z) (dropout : float)
| CApplyDataLayer (s : split)      (* [train_data_layer()] / [eval_data_layer()] *)
| CApplyBert (s : split)           (* [bert_model(input_ids=..., ...)] *)
| CApplyLoss (s : split)           (* [ner_loss(hidden_states=..., ...)] *)
| CSimpleLossLoggerCallback (has_tb_writer : bool)
| CLen                             (* [len(train_data_layer)] *)
| CEvaluatorCallback (has_tb_writer : bool) (output_filename : string)
    (eval_step : Z)
| CLrPolicy (p : lr_schedule)      (* constructing the schedule object *)
| CTrain (tensors_to_optimize : split) (lr_policy : lr_schedule)
    (optimizer : string) (num_epochs : Z) (lr : float).

(** The tokenizer object built by lines 72-80. *)
Inductive tokenizer : Type :=
| TokNemoBert (pretrained_model : string)
| TokSentencePiece (model_path : string) (special_tokens : list string).

(** What the script can observe. *)
Inductive event : Type :=
| EIsFile (path : string)
| EPrint (line : string)
| EPrintInt (label : string) (n : Z)
| ECall (c : call).

(** The environment: the file system, which framework calls raise, and the
    attribute values the script reads from framework objects.  No call
    occurs twice in one run, so [raises] needs no history. *)
Record env : Type := Env {
  isfile : string -> bool;
  raises : call -> option exn;
  tok_vocab_size : tokenizer -> Z;  (* [tokenizer.vocab_size] *)
  num_tag_ids : Z;                  (* [len(train_data_layer.dataset.tag_ids)] *)
  hidden_size : Z;                  (* [bert_model.bert.config.hidden_size] *)
  train_len : Z }.                  (* what [train_data_layer.__len__] returns *)

(** ** A trace-and-exception monad *)

Definition M (A : Type) : Type := list event -> list event * (exn + A).

Definition ret {A} (a : A) : M A := fun tr => (tr, inr a).

Definition bind {A B} (m : M A) (f : A -> M B) : M B :=
  fun tr => match m tr with
         | (tr', inl x) => (tr', inl x)
         | (tr', inr a) => f a tr'
         end.

Definition raise {A} (x : exn) : M A := fun tr => (tr, inl x).

Definition lift {A} (r : exn + A) : M A := fun tr => (tr, r).

Definition emit (ev : event) : M unit := fun tr => (app tr [ev]%list, inr tt).

Definition print (line : string) : M unit := emit (EPrint line).

Notation "x <- m ;; k" := (bind m (fun x => k))
  (at level 61, m at next level, right associativity).
Notation "m ;; k" := (bind m (fun _ => k)) (at level 61, right associativity).

Section Script.

Variable E : env.

(** A framework call: observed, then possibly raising. *)
Definition call_ext (c : call) : M unit :=
  fun tr => (app tr [ECall c]%list,
             match raises E c with Some x => inl x | None => inr tt end).

(** [os.path.isfile] never raises. *)
Definition os_path_isfile (p : string) : M bool :=
  fun tr => (app tr [EIsFile p]%list, inr (isfile E p)).

(** [try: body except ModuleNotFoundError: handler] *)
Definition except_ModuleNotFoundError {A} (body handler : M A) : M A :=
  fun tr => match body tr with
         | (tr', inl x) => if is_ModuleNotFoundError x then handler tr'
                           else (tr', inl x)
         | r => r
         end.

(** [len(obj)]: CPython checks the value [__len__] returns. *)
Definition py_len : M Z :=
  call_ext CLen ;;
  let n := train_len E in
  if (n <? 0)%Z then raise (ValueError "__len__() should return >= 0")
  else if (2 ^ 63 <=? n)%Z
  then raise (OverflowError "cannot fit 'int' into an index-sized integer")
  else ret n.

Definition dataset_msg : string :=
  "CoNLL-2003 dataset not found. Dataset can be "
  ++ "obtained at https://github.com/kyzhouhzau/BERT"
  ++ "-NER/tree/master/data and should be put in a "
  ++ "folder at the same level as ner.py.".

Definition lr_policy_msg : string :=
  "Invalid lr_policy, must be lr_warmup or lr_poly".

Definition special_tokens : list string := ["[MASK]"; "[CLS]"; "[SEP]"]%list.

(** Lines 41-85: dataset check, tensorboard writer, factory, tokenizer and
    encoder.  Returns whether [tb_writer] is a writer (not [None]) and the
    tokenizer. *)
Definition setup (a : args) : M (bool * tokenizer) :=
  let data_file := path_join (data_dir a) "train.txt" in
  present <- os_path_isfile data_file ;;
  if negb present then raise (FileNotFoundError dataset_msg) else
  tb_writer <- except_ModuleNotFoundError
                 (call_ext CImportTensorboardX ;;
                  call_ext (CSummaryWriter (tensorboard_filename a)) ;;
                  ret true)
                 (print "Tensorboard is not available." ;; ret false) ;;
  let device := match local_rank a with Some _ => AllGpu | None => GPU end in
  let optimization_level :=
    if mixed_precision a then mxprO1 else mxprO0 in
  call_ext (CNeuralModuleFactory PyTorch (local_rank a) optimization_level
              device) ;;
  tok <- match bert_checkpoint a with
         | None =>
             call_ext (CNemoBertTokenizer (pretrained_bert_model a)) ;;
             call_ext (CBertPretrained (pretrained_bert_model a)) ;;
             ret (TokNemoBert (pretrained_bert_model a))
         | Some ckpt =>
             call_ext (CSentencePieceTokenizer "tokenizer.model") ;;
             call_ext (CAddSpecialTokens special_tokens) ;;
             call_ext (CBertFromConfig (bert_config a)) ;;
             call_ext (CRestoreFrom ckpt) ;;
             ret (TokSentencePiece "tokenizer.model" special_tokens)
         end ;;
  ret (tb_writer, tok).

(** Line 87: [vocab_size = 8 * math.ceil(tokenizer.vocab_size / 8)]. *)
Definition pad_vocab (tok : tokenizer) : M Z :=
  lift (padded_vocab_size (tok_vocab_size E tok)).

(** Lines 170-178: which schedule object is built. *)
Definition select_lr_policy (a : args) (steps_per_epoch : Z)
  : exn + lr_schedule :=
  if String.eqb (lr_policy a) "lr_warmup" then
    inr (WarmupAnnealing (num_epochs a * steps_per_epoch)
           (lr_warmup_proportion a))
  else if String.eqb (lr_policy a) "lr_poly" then
    inr (SquareAnnealing (num_epochs a * steps_per_epoch))
  else if String.eqb (lr_policy a) "lr_cosine" then
    inr (CosineAnnealing (num_epochs a * steps_per_epoch))
  else inl (ValueError lr_policy_msg).

(** Lines 89-188: both pipelines, callbacks, schedule, training. *)
Definition pipeline (a : args) (tb_writer : bool) : M unit :=
  print "Loading training data..." ;;
  call_ext (CBertNERDataLayer Train (path_join (data_dir a) "train.txt")
              (max_seq_length a) true (batch_size a) false 0 (local_rank a)) ;;
  call_ext (CTokenClassificationLoss (hidden_size E) (num_tag_ids E)
              (classification_dropout a)) ;;
  call_ext (CApplyDataLayer Train) ;;
  call_ext (CApplyBert Train) ;;
  call_ext (CApplyLoss Train) ;;
  print "Loading eval data..." ;;
  call_ext (CBertNERDataLayer Eval (path_join (data_dir a) "dev.txt")
              (max_seq_length a) true (batch_size a) false 0 (local_rank a)) ;;
  call_ext (CApplyDataLayer Eval) ;;
  call_ext (CApplyBert Eval) ;;
  call_ext (CApplyLoss Eval) ;;
  call_ext (CSimpleLossLoggerCallback tb_writer) ;;
  train_data_size <- py_len ;;
  spe <- lift (steps_per_epoch train_data_size (batch_size a) (num_gpus a)) ;;
  emit (EPrintInt "steps_per_epoch =" spe) ;;
  call_ext (CEvaluatorCallback tb_writer (output_filename a) spe) ;;
  lr_policy_func <- lift (select_lr_policy a spe) ;;
  call_ext (CLrPolicy lr_policy_func) ;;
  call_ext (CTrain Train lr_policy_func (optimizer_kind a) (num_epochs a)
              (lr a)).

(** The whole script. *)
Definition script (a : args) : M unit :=
  r <- setup a ;;
  let '(tb_writer, tok) := r in
  vocab_size <- pad_vocab tok ;;
  pipeline a tb_writer.

(** The script with line 87 deleted. *)
Definition script_without_vocab (a : args) : M unit :=
  r <- setup a ;;
  let '(tb_writer, _) := r in
  pipeline a tb_writer.

Definition run (a : args) : list event * (exn + unit) := script a []%list.

End Script.

Definition run_without_vocab (E : env) (a : args) : list event * (exn + unit) :=
  script_without_vocab E a []%list.

(** The learning-rate selection as the spec words it: the three policy
    names, each with its schedule over [total] steps. *)
Definition spec_lr_schedule (policy : string) (total : Z) (ratio : float)
  : option lr_schedule :=
  if String.eqb policy "lr_warmup" then Some (WarmupAnnealing total ratio)
  else if String.eqb policy "lr_poly" then Some (SquareAnnealing total)
  else if String.eqb policy "lr_cosine" then Some (CosineAnnealing total)
  else None.

(** A sample environment: files present, nothing raises, BERT-base sizes. *)
Definition sample_env : env :=
  Env (fun _ => true) (fun _ => None) (fun _ => 28996) 9 768 14041.

(** No dataset: every [isfile] test fails. *)
Definition no_dataset_env : env :=
  Env (fun _ => false) (fun _ => None) (fun _ => 28996) 9 768 14041.

(** A tokenizer whose vocabulary size overflows a float once divided. *)
Definition huge_vocab_env : env :=
  Env (fun _ => true) (fun _ => None) (fun _ => (2 ^ 1030)%Z) 9 768 14041.

(** tensorboardX is not installed: its import raises
    [ModuleNotFoundError], nothing else raises. *)
Definition no_tensorboard_env : env :=
  Env (fun _ => true)
    (fun c => match c with
              | CImportTensorboardX =>
                  Some (ModuleNotFoundError "No module named 'tensorboardX'")
              | _ => None
              end)
    (fun _ => 28996) 9 768 14041.

(** The default arguments with [--bert_checkpoint] and [--bert_config]. *)
Definition checkpoint_args : args :=
  Args None 32 1 1 0.1%float 5e-5%float 0%float "adam" false "lr_warmup"
    "bert-base-cased" "./conll2003" 0.1%float 128 "output.txt"
    "ner_tensorboard" (Some "bert.ckpt") (Some "bert_config.json").

(** The default arguments with [--num_gpus 0]. *)
Definition no_gpu_args : args :=
  Args None 32 0 1 0.1%float 5e-5%float 0%float "adam" false "lr_warmup"
    "bert-base-cased" "./conll2003" 0.1%float 128 "output.txt"
    "ner_tensorboard" None None.

(** The default arguments with [--lr_policy lr_poly]. *)
Definition poly_args : args :=
  Args None 32 1 1 0.1%float 5e-5%float 0%float "adam" false "lr_poly"
    "bert-base-cased" "./conll2003" 0.1%float 128 "output.txt"
    "ner_tensorboard" None None.

(** The policy names the script accepts. *)
Definition lr_policies : list string := ["lr_warmup"; "lr_poly"; "lr_cosine"]%list.

(** The eight stages of the spec's system overview, as it names them:
    (2) dataset check, (3) tokenizer and encoder, (4) data layers and loss
    module, (5) connecting data layer, encoder and loss, (6) callbacks,
    (7) schedule, (8) training.  Other events belong to no named stage. *)
Definition spec_stage (ev : event) : option Z :=
  match ev with
  | EIsFile _ => Some 2
  | ECall c =>
      match c with
      | CNemoBertTokenizer _ | CSentencePieceTokenizer _ | CAddSpecialTokens _
      | CBertPretrained _ | CBertFromConfig _ | CRestoreFrom _ => Some 3
      | CBertNERDataLayer _ _ _ _ _ _ _ _ | CTokenClassificationLoss _ _ _ =>
          Some 4
      | CApplyDataLayer _ | CApplyBert _ | CApplyLoss _ => Some 5
      | CSimpleLossLoggerCallback _ | CEvaluatorCallback _ _ _ => Some 6
      | CLrPolicy _ => Some 7
      | CTrain _ _ _ _ _ => Some 8
      | CImportTensorboardX | CSummaryWriter _ | CNeuralModuleFactory _ _ _ _
      | CLen => None
      end
  | EPrint _ | EPrintInt _ _ => None
  end.

(** The stages as the source orders them: (2) dataset check, (3) tensorboard
    writer and factory, (4) tokenizer and encoder, (5) training data layer
    and loss module, (6) connecting the training pipeline, (7) evaluation
    data layer, (8) connecting the evaluation pipeline, (9) callbacks,
    (10) schedule, (11) training. *)
Definition source_stage (ev : event) : option Z :=
  match ev with
  | EIsFile _ => Some 2
  | ECall c =>
      match c with
      | CImportTensorboardX | CSummaryWriter _ | CNeuralModuleFactory _ _ _ _ =>
          Some 3
      | CNemoBertTokenizer _ | CSentencePieceTokenizer _ | CAddSpecialTokens _
      | CBertPretrained _ | CBertFromConfig _ | CRestoreFrom _ => Some 4
      | CBertNERDataLayer Train _ _ _ _ _ _ _ | CTokenClassificationLoss _ _ _ =>
          Some 5
      | CApplyDataLayer Train | CApplyBert Train | CApplyLoss Train => Some 6
      | CBertNERDataLayer Eval _ _ _ _ _ _ _ => Some 7
      | CApplyDataLayer Eval | CApplyBert Eval | CApplyLoss Eval => Some 8
      | CSimpleLossLoggerCallback _ | CEvaluatorCallback _ _ _ => Some 9
      | CLrPolicy _ => Some 10
      | CTrain _ _ _ _ _ => Some 11
      | CLen => None
      end
  | EPrint _ | EPrintInt _ _ => None
  end.

Fixpoint stages (st : event -> option Z) (tr : list event) : list Z :=
  match tr with
  | [] => []
  | ev :: tr' =>
      match st ev with
      | Some k => k :: stages st tr'
      | None => stages st tr'
      end
  end%list.

Fixpoint nondecreasing (l : list Z) : bool :=
  match l with
  | x :: ((y :: _) as l') => (x <=? y)%Z && nondecreasing l'
  | _ => true
  end%list.

(** Collapse runs of equal adjacent stages. *)
Fixpoint collapse (l : list Z) : list Z :=
  match l with
  | x :: ((y :: _) as l') => if (x =? y)%Z then collapse l' else x :: collapse l'
  | _ => l
  end%list.

Definition is_train_call (ev : event) : bool :=
  match ev with ECall (CTrain _ _ _ _ _) => true | _ => false end.

Definition is_tensorboard_call (c : call) : bool :=
  match c with CImportTensorboardX | CSummaryWriter _ => true | _ => false end.

(** Tokenizer and encoder construction (lines 72-85). *)
Definition is_encoder_call (ev : event) : bool :=
  match ev with
  | ECall (CNemoBertTokenizer _ | CSentencePieceTokenizer _
           | CAddSpecialTokens _ | CBertPretrained _ | CBertFromConfig _
           | CRestoreFrom _) => true
  | _ => false
  end.

Definition with_pretrained_bert_model (name : string) (a : args) : args :=
  Args (local_rank a) (batch_size a) (num_gpus a) (num_epochs a)
    (lr_warmup_proportion a) (lr a) (weight_decay a) (optimizer_kind a)
    (mixed_precision a) (lr_policy a) name (data_dir a)
    (classification_dropout a) (max_seq_length a) (output_filename a)
    (tensorboard_filename a) (bert_checkpoint a) (bert_config a).

Definition with_weight_decay (w : float) (a : args) : args :=
  Args (local_rank a) (batch_size a) (num_gpus a) (num_epochs a)
    (lr_warmup_proportion a) (lr a) w (optimizer_kind a)
    (mixed_precision a) (lr_policy a) (pretrained_bert_model a) (data_dir a)
    (classification_dropout a) (max_seq_length a) (output_filename a)
    (tensorboard_filename a) (bert_checkpoint a) (bert_config a).

Definition with_bert_config (c : option string) (a : args) : args :=
  Args (local_rank a) (batch_size a) (num_gpus a) (num_epochs a)
    (lr_warmup_proportion a) (lr a) (weight_decay a) (optimizer_kind a)
    (mixed_precision a) (lr_policy a) (pretrained_bert_model a) (data_dir a)
    (classification_dropout a) (max_seq_length a) (output_filename a)
    (tensorboard_filename a) (bert_checkpoint a) c.

Definition with_lr_warmup_proportion (r : float) (a : args) : args :=
  Args (local_rank a) (batch_size a) (num_gpus a) (num_epochs a)
    r (lr a) (weight_decay a) (optimizer_kind a)
    (mixed_precision a) (lr_policy a) (pretrained_bert_model a) (data_dir a)
    (classification_dropout a) (max_seq_length a) (output_filename a)
    (tensorboard_filename a) (bert_checkpoint a) (bert_config a).

(** The events of lines 159-188, which all use [steps_per_epoch]. *)
Definition needs_steps (ev : event) : bool :=
  match ev with
  | EPrintInt _ _ => true
  | ECall (CEvaluatorCallback _ _ _ | CLrPolicy _ | CTrain _ _ _ _ _) => true
  | _ => false
  end.

(** [safe P Q m]: run from a trace whose events satisfy [P], [m] only adds
    events satisfying [P], and a value it returns satisfies [Q]. *)
Definition safe {A : Type} (P : event -> Prop) (Q : A -> Prop) (m : M A) : Prop :=
  forall tr, (forall ev, In ev tr -> P ev) ->
    (forall ev, In ev (fst (m tr)) -> P ev) /\
    (forall x, snd (m tr) = inr x -> Q x).

(** The tokenizer and encoder calls as the spec describes them: with a
    checkpoint, a SentencePiece tokenizer from ["tokenizer.model"] with
    [MASK], [CLS] and [SEP] added, BERT built from [--bert_config] and
    restored from the checkpoint; without one, the pretrained tokenizer and
    model named by [--pretrained_bert_model]. *)
Definition spec_encoder_calls (a : args) : list event :=
  match bert_checkpoint a with
  | Some ckpt =>
      [ECall (CSentencePieceTokenizer "tokenizer.model");
       ECall (CAddSpecialTokens ["[MASK]"; "[CLS]"; "[SEP]"]);
       ECall (CBertFromConfig (bert_config a));
       ECall (CRestoreFrom ckpt)]
  | None =>
      [ECall (CNemoBertTokenizer (pretrained_bert_model a));
       ECall (CBertPretrained (pretrained_bert_model a))]
  end%list.

Arguments py_truediv : simpl never.
Arguments steps_per_epoch : simpl never.
Arguments padded_vocab_size : simpl never.
Arguments path_join : simpl never.
Arguments dataset_msg : simpl never.
Arguments lr_policy_msg : simpl never.
Arguments special_tokens : simpl never.
Arguments String.eqb : simpl never.
(** * Properties *)

Open Scope Z_scope.

(** ** Small evaluations of the float model *)

Example truediv_7_2 : option_map py_int (match py_truediv 7 2 with inr f => Some f | _ => None end) = Some 3.
Proof. reflexivity. Qed.
Example ceil_7_2 : option_map py_ceil (match py_truediv 7 2 with inr f => Some f | _ => None end) = Some 4.
Proof. reflexivity. Qed.
Example int_neg : option_map py_int (match py_truediv (-7) 2 with inr f => Some f | _ => None end) = Some (-3).
Proof. reflexivity. Qed.
Example big : option_map py_int (match py_truediv (2^53+1) 1 with inr f => Some f | _ => None end) = Some (2^53).
Proof. vm_compute. reflexivity. Qed.
Example tiny : option_map py_ceil (match py_truediv 1 (2^2000) with inr f => Some f | _ => None end) = Some 0.
Proof. vm_compute. reflexivity. Qed.
Example ovf : match py_truediv (2^1024) 1 with inl (OverflowError _) => True | _ => False end.
Proof. vm_compute. exact I. Qed.
Example noovf : match py_truediv (2^1024 - 2^970 - 1) 1 with inr _ => True | _ => False end.
Proof. vm_compute. exact I. Qed.
Example ovf2 : match py_truediv (2^1024 - 2^970) 1 with inl _ => True | _ => False end.
Proof. vm_compute. exact I. Qed.

(** ** Arithmetic of the float model *)

Lemma pow2_pos (k : Z) : 0 <= k -> 0 < 2 ^ k.
Proof. intros; apply Z.pow_pos_nonneg; lia. Qed.

Lemma pow2_add (x y : Z) : 0 <= x -> 0 <= y -> 2 ^ (x + y) = 2 ^ x * 2 ^ y.
Proof. intros; apply Z.pow_add_r; lia. Qed.

Lemma pow2_le_mono (x y : Z) : 0 <= x <= y -> 2 ^ x <= 2 ^ y.
Proof. intros; apply Z.pow_le_mono_r; lia. Qed.

Lemma quot_exp_le (n d : Z) : 0 < n -> 0 < d ->
  quot_exp n d <= Z.log2 n - Z.log2 d.
Proof. intros. unfold quot_exp. destruct (_ <=? _); lia. Qed.

Lemma quot_exp_ge (n d : Z) : 0 < n -> 0 < d ->
  Z.log2 n - Z.log2 d - 1 <= quot_exp n d.
Proof. intros. unfold quot_exp. destruct (_ <=? _); lia. Qed.

(** The lower bound [2^E <= n / d], scaled by [2^t]. *)
Lemma quot_exp_lower (n d t : Z) : 0 < n -> 0 < d -> 0 <= t ->
  0 <= quot_exp n d + t -> d * 2 ^ (quot_exp n d + t) <= n * 2 ^ t.
Proof.
  intros Hn Hd Ht HE.
  pose proof (Z.log2_spec n Hn) as [Ha1 Ha2].
  pose proof (Z.log2_spec d Hd) as [Hc1 Hc2].
  pose proof (Z.log2_nonneg n). pose proof (Z.log2_nonneg d).
  unfold quot_exp in *.
  set (a := Z.log2 n) in *. set (c := Z.log2 d) in *.
  rewrite Z.pow_succ_r in Ha2, Hc2 by lia.
  destruct (Z.leb_spec (d * 2 ^ a) (n * 2 ^ c)) as [Hle | Hgt].
  - (* multiply both sides by [2^c] *)
    apply (Z.mul_le_mono_pos_r _ _ (2 ^ c)); [apply pow2_pos; lia |].
    rewrite <- Z.mul_assoc, <- pow2_add by lia.
    replace (a - c + t + c) with (a + t) by lia.
    rewrite pow2_add by lia.
    pose proof (pow2_pos t Ht). nia.
  - replace (a - c - 1 + t) with ((a + t) - (c + 1)) in * by lia.
    assert (Hs : 2 ^ (a + t - (c + 1)) * (2 * 2 ^ c) = 2 ^ a * 2 ^ t).
    { replace (2 * 2 ^ c) with (2 ^ (c + 1))
        by (rewrite pow2_add by lia; change (2 ^ 1) with 2; ring).
      rewrite <- !pow2_add by lia. f_equal; lia. }
    pose proof (pow2_pos (a + t - (c + 1)) HE).
    pose proof (pow2_pos t Ht). nia.
Qed.

(** The upper bound [n / d < 2^(E+1)], scaled by [2^t]. *)
Lemma quot_exp_upper (n d t : Z) : 0 < n -> 0 < d -> 0 <= t ->
  0 <= quot_exp n d + 1 + t -> n * 2 ^ t < d * 2 ^ (quot_exp n d + 1 + t).
Proof.
  intros Hn Hd Ht HE.
  pose proof (Z.log2_spec n Hn) as [Ha1 Ha2].
  pose proof (Z.log2_spec d Hd) as [Hc1 Hc2].
  pose proof (Z.log2_nonneg n). pose proof (Z.log2_nonneg d).
  unfold quot_exp in *.
  set (a := Z.log2 n) in *. set (c := Z.log2 d) in *.
  rewrite Z.pow_succ_r in Ha2, Hc2 by lia.
  destruct (Z.leb_spec (d * 2 ^ a) (n * 2 ^ c)) as [Hle | Hgt].
  - assert (Hs : 2 ^ c * 2 ^ (a - c + 1 + t) = 2 * 2 ^ a * 2 ^ t).
    { rewrite <- pow2_add by lia.
      replace (c + (a - c + 1 + t)) with ((a + 1) + t) by lia.
      rewrite !pow2_add by lia. change (2 ^ 1) with 2. ring. }
    pose proof (pow2_pos (a - c + 1 + t) HE).
    pose proof (pow2_pos t Ht). nia.
  - replace (a - c - 1 + 1 + t) with (a - c + t) by lia.
    apply (Z.mul_lt_mono_pos_r (2 ^ c)); [apply pow2_pos; lia |].
    rewrite <- (Z.mul_assoc d), <- pow2_add by lia.
    replace (a - c + t + c) with (a + t) by lia.
    rewrite pow2_add by lia.
    pose proof (pow2_pos t Ht). nia.
Qed.

Lemma round_half_even_cases (num den : Z) : 0 < den ->
  round_half_even num den = num / den \/
  (round_half_even num den = num / den + 1 /\ den <= 2 * (num mod den)).
Proof.
  intros Hd. unfold round_half_even.
  destruct (Z.compare_spec (2 * (num mod den)) den).
  - destruct (Z.even (num / den)); [left | right]; split; lia.
  - left; reflexivity.
  - right; split; lia.
Qed.

Lemma round_half_even_exact (num den : Z) : 0 < den -> num mod den = 0 ->
  round_half_even num den = num / den.
Proof.
  intros Hd H0. unfold round_half_even. rewrite H0.
  destruct (Z.compare_spec (2 * 0) den); lia.
Qed.

Lemma round_half_even_nonneg (num den : Z) : 0 <= num -> 0 < den ->
  0 <= round_half_even num den.
Proof.
  intros. pose proof (Z.div_pos num den ltac:(lia) ltac:(lia)).
  destruct (round_half_even_cases num den) as [-> | [-> _]]; lia.
Qed.

(** Rounding [n * 2^s / d] to an integer and shifting it back by [s] bits
    gives [n / d] as long as [d < 2^(s+1)]: a round-up never crosses the
    next multiple of [2^s]. *)
Lemma round_shift_floor (n d s : Z) : 0 <= n -> 0 < d -> 0 <= s ->
  d < 2 * 2 ^ s -> round_half_even (n * 2 ^ s) d / 2 ^ s = n / d.
Proof.
  intros Hn Hd Hs Hds.
  pose proof (pow2_pos s Hs) as HP.
  set (P := 2 ^ s) in *.
  pose proof (Z.div_mod n d ltac:(lia)) as Hn'.
  pose proof (Z.mod_pos_bound n d Hd) as Hr.
  set (q := n / d) in *. set (r := n mod d) in *.
  assert (HQ : n * P / d = q * P + r * P / d).
  { rewrite Hn', Z.mul_add_distr_r.
    replace (d * q * P) with ((q * P) * d) by ring.
    rewrite Z.add_comm, Z.div_add by lia. ring. }
  assert (HR : (n * P) mod d = (r * P) mod d).
  { rewrite Hn', Z.mul_add_distr_r.
    replace (d * q * P) with ((q * P) * d) by ring.
    rewrite Z.add_comm, Z.mod_add by lia. reflexivity. }
  pose proof (Z.div_mod (r * P) d ltac:(lia)) as Hj.
  pose proof (Z.mod_pos_bound (r * P) d Hd) as HRb.
  pose proof (Z.div_pos (r * P) d ltac:(nia) Hd) as Hj0.
  assert (Hj1 : r * P / d < P).
  { apply Z.div_lt_upper_bound; nia. }
  set (j := r * P / d) in *. set (R := (r * P) mod d) in *.
  assert (Hq : forall k, 0 <= k < P -> (q * P + k) / P = q).
  { intros k Hk. rewrite Z.div_add_l by lia. rewrite Z.div_small by lia. ring. }
  destruct (round_half_even_cases (n * P) d Hd) as [-> | [-> Hup]];
    rewrite HQ; [apply Hq; lia |].
  rewrite HR in Hup. rewrite <- Z.add_assoc. apply Hq.
  split; [lia |].
  destruct (Z.eq_dec j (P - 1)) as [Heq | Hne]; [| lia].
  exfalso. rewrite Heq in Hj. nia.
Qed.

Lemma round_half_even_le (num den : Z) : 0 < den ->
  round_half_even num den <= num / den + 1.
Proof.
  intros Hd. destruct (round_half_even_cases num den Hd) as [-> | [-> _]]; lia.
Qed.

Lemma neg_floor_neg_8 (v : Z) : - ((- v) / 8) = (v + 7) / 8.
Proof.
  pose proof (Z.div_mod (- v) 8 ltac:(lia)).
  pose proof (Z.mod_pos_bound (- v) 8 ltac:(lia)).
  apply (Z.div_unique _ _ _ (7 - (- v) mod 8)); lia.
Qed.

(** Line 157 is exact integer division below [2^53]. *)
Lemma steps_per_epoch_exact (n b g : Z) : 0 <= n < 2 ^ 53 -> 0 < b -> 0 < g ->
  steps_per_epoch n b g = inr (n / (b * g)).
Proof.
  intros Hn Hb Hg. unfold steps_per_epoch, py_truediv.
  assert (Hd : 0 < b * g) by nia. set (d := b * g) in *.
  destruct (Z.eqb_spec d 0); [lia |].
  destruct (Z.eqb_spec n 0) as [-> | Hn0].
  { cbn. rewrite ?Z.div_0_l by lia. reflexivity. }
  rewrite !Z.abs_eq by lia.
  assert (Hlog : Z.log2 n < 53) by (apply Z.log2_lt_pow2; lia).
  pose proof (quot_exp_le n d ltac:(lia) Hd) as HEle.
  pose proof (quot_exp_lower n d) as Hlow.
  pose proof (quot_exp_upper n d) as Hup.
  pose proof (Z.log2_nonneg d).
  unfold mag_div, ulp_exp.
  set (E := quot_exp n d) in *.
  replace (xorb (n <? 0) (d <? 0)) with false
    by (rewrite (proj2 (Z.ltb_ge n 0)), (proj2 (Z.ltb_ge d 0)) by lia; reflexivity).
  destruct (Z.ltb_spec (Z.max (E - 52) (-1074)) 0) as [Hneg | Hnn].
  - destruct (Z.leb_spec 0 (Z.max (E - 52) (-1074))); [lia |].
    cbn [andb]. unfold py_int. cbn [fmant fexp].
    destruct (Z.leb_spec 0 (Z.max (E - 52) (-1074))); [lia |].
    f_equal.
    rewrite Z.quot_div_nonneg;
      [| apply round_half_even_nonneg; [pose proof (pow2_pos (- Z.max (E - 52) (-1074))); nia | lia]
       | apply pow2_pos; lia].
    destruct (Z.max_spec (E - 52) (-1074)) as [[Hlt Hm] | [Hge Hm]];
      rewrite Hm in *.
    + (* subnormal quantum: the quotient is below 1 *)
      change (- -1074) with 1074.
      assert (Hsmall : n * 2 ^ 1074 < d * 2 ^ 52).
      { destruct (Z.le_gt_cases (-1075) E) as [HE | HE].
        - specialize (Hup 1074 ltac:(lia) ltac:(lia) ltac:(lia)).
          pose proof (pow2_le_mono (E + 1 + 1074) 52 ltac:(lia)). nia.
        - specialize (Hup (- E - 1) ltac:(lia) ltac:(lia) ltac:(lia)).
          replace (E + 1 + (- E - 1)) with 0 in Hup by lia.
          pose proof (pow2_le_mono 1074 (- E - 1) ltac:(lia)).
          pose proof (pow2_pos 52 ltac:(lia)). nia. }
      assert (H1074 : 2 ^ 1074 = 2 ^ 1022 * 2 ^ 52) by (rewrite <- pow2_add by lia; f_equal).
      pose proof (pow2_pos 1022 ltac:(lia)). pose proof (pow2_pos 52 ltac:(lia)).
      assert (Hnd : n < d) by nia.
      rewrite (Z.div_small n d) by lia.
      apply Z.div_small. split.
      * apply round_half_even_nonneg; [nia | lia].
      * pose proof (round_half_even_le (n * 2 ^ 1074) d Hd).
        assert (n * 2 ^ 1074 / d < 2 ^ 52) by (apply Z.div_lt_upper_bound; lia).
        pose proof (pow2_le_mono 52 1074 ltac:(lia)).
        assert (2 ^ 52 < 2 ^ 1074) by (apply Z.pow_lt_mono_r; lia). lia.
    + replace (- (E - 52)) with (52 - E) by lia.
      apply round_shift_floor; [lia | lia | lia |].
      specialize (Hlow (52 - E) ltac:(lia) ltac:(lia)).
      replace (E + (52 - E)) with 52 in Hlow by lia.
      assert (H53 : 2 ^ 53 = 2 * 2 ^ 52) by reflexivity.
      pose proof (pow2_pos (52 - E) ltac:(lia)). pose proof (pow2_pos 52 ltac:(lia)).
      nia.
  - (* the exponent is 0: the quotient has 53 bits, so [d = 1] *)
    assert (Hm : Z.max (E - 52) (-1074) = 0) by lia.
    rewrite Hm. change (2 ^ 0) with 1. rewrite Z.mul_1_r.
    assert (HE : E = 52) by lia.
    specialize (Hlow 0 ltac:(lia) ltac:(lia)).
    rewrite HE in Hlow. change (2 ^ (52 + 0)) with (2 ^ 52) in Hlow.
    change (2 ^ 0) with 1 in Hlow.
    assert (H53 : 2 ^ 53 = 2 * 2 ^ 52) by reflexivity.
    pose proof (pow2_pos 52 ltac:(lia)).
    assert (Hd1 : d = 1) by nia. rewrite Hd1 in *.
    pose proof (round_half_even_le n 1 ltac:(lia)). rewrite Z.div_1_r in *.
    assert (Hr : round_half_even n 1 = n).
    { rewrite round_half_even_exact by (try rewrite Z.mod_1_r; lia).
      apply Z.div_1_r. }
    cbn. rewrite Hr.
    match goal with |- context [?c <=? n] => destruct (Z.leb_spec c n) as [Hc | Hc] end.
    + exfalso. assert (2 ^ 53 < 2 ^ 1024) by (apply Z.pow_lt_mono_r; lia). lia.
    + cbn. f_equal. ring.
Qed.

(** Line 87 rounds up to a multiple of 8 below [2^53]. *)
Lemma padded_vocab_size_exact (v : Z) : 0 <= v < 2 ^ 53 ->
  padded_vocab_size v = inr (8 * ((v + 7) / 8)).
Proof.
  intros Hv. unfold padded_vocab_size, py_truediv.
  destruct (Z.eqb_spec v 0) as [-> | Hv0]; [reflexivity |].
  change (8 =? 0) with false. cbv iota.
  rewrite Z.abs_eq by lia. change (Z.abs 8) with 8.
  assert (Hlog : Z.log2 v < 53) by (apply Z.log2_lt_pow2; lia).
  pose proof (Z.log2_nonneg v).
  pose proof (quot_exp_le v 8 ltac:(lia) ltac:(lia)) as HEle.
  pose proof (quot_exp_ge v 8 ltac:(lia) ltac:(lia)) as HEge.
  change (Z.log2 8) with 3 in HEle, HEge.
  unfold mag_div, ulp_exp.
  set (E := quot_exp v 8) in *.
  assert (Hm : Z.max (E - 52) (-1074) = E - 52) by lia. rewrite Hm.
  destruct (Z.ltb_spec (E - 52) 0); [| lia].
  destruct (Z.leb_spec 0 (E - 52)); [lia |].
  replace (xorb (v <? 0) (8 <? 0)) with false
    by (rewrite (proj2 (Z.ltb_ge v 0)) by lia; reflexivity).
  cbn [andb]. unfold py_ceil. cbn [fmant fexp].
  destruct (Z.leb_spec 0 (E - 52)); [lia |].
  replace (- (E - 52)) with ((49 - E) + 3) by lia.
  rewrite pow2_add by lia. change (2 ^ 3) with 8.
  pose proof (pow2_pos (49 - E) ltac:(lia)).
  rewrite round_half_even_exact by
    (try (rewrite Z.mul_assoc, Z.mod_mul); lia).
  rewrite Z.mul_assoc, Z.div_mul by lia.
  replace (- (v * 2 ^ (49 - E))) with ((- v) * 2 ^ (49 - E)) by ring.
  rewrite (Z.mul_comm (2 ^ (49 - E)) 8), Z.div_mul_cancel_r by lia.
  rewrite neg_floor_neg_8. reflexivity.
Qed.

(** [n / d] is a finite float whenever [|n| < 2^1023 * |d|]. *)
Lemma py_truediv_finite (n d : Z) : d <> 0 -> Z.abs n < 2 ^ 1023 * Z.abs d ->
  exists f, py_truediv n d = inr f.
Proof.
  intros Hd Hn. unfold py_truediv.
  destruct (Z.eqb_spec d 0); [lia |].
  destruct (Z.eqb_spec n 0); [eexists; reflexivity |].
  assert (HN : 0 < Z.abs n) by lia. assert (HD : 0 < Z.abs d) by lia.
  pose proof (quot_exp_lower (Z.abs n) (Z.abs d) 0 HN HD ltac:(lia)) as Hlow.
  pose proof (quot_exp_upper (Z.abs n) (Z.abs d) 0 HN HD ltac:(lia)) as Hup.
  unfold mag_div, ulp_exp.
  set (E := quot_exp (Z.abs n) (Z.abs d)) in *.
  set (N := Z.abs n) in *. set (D := Z.abs d) in *.
  assert (HE : E <= 1022).
  { destruct (Z.le_gt_cases E 1022) as [| HE]; [assumption | exfalso].
    specialize (Hlow ltac:(lia)). rewrite Z.add_0_r in Hlow.
    pose proof (pow2_le_mono 1023 E ltac:(lia)). nia. }
  set (e := Z.max (E - 52) (-1074)).
  destruct (Z.ltb_spec e 0).
  - destruct (Z.leb_spec 0 e); [lia |]. eexists; reflexivity.
  - assert (He : e = E - 52) by lia. rewrite He in *.
    destruct (Z.leb_spec 0 (E - 52)); [| lia]. cbn [andb].
    destruct (Z.leb_spec (2 ^ 1024) (round_half_even N (D * 2 ^ (E - 52)) * 2 ^ (E - 52)))
      as [Hov | Hok]; [exfalso | eexists; reflexivity].
    specialize (Hup ltac:(lia)). rewrite Z.mul_1_r, Z.add_0_r in Hup.
    replace (E + 1) with ((E - 52) + 53) in Hup by lia.
    rewrite pow2_add in Hup by lia.
    pose proof (pow2_pos (E - 52) ltac:(lia)).
    assert (HQ : N / (D * 2 ^ (E - 52)) < 2 ^ 53)
      by (apply Z.div_lt_upper_bound; nia).
    pose proof (round_half_even_le N (D * 2 ^ (E - 52)) ltac:(nia)).
    assert (Hp : 2 ^ 53 * 2 ^ (E - 52) <= 2 ^ 1023).
    { rewrite <- pow2_add by lia. apply pow2_le_mono; lia. }
    assert (2 ^ 1023 < 2 ^ 1024) by (apply Z.pow_lt_mono_r; lia).
    nia.
Qed.

(** ** Case analysis over a run *)

Ltac unfold_script :=
  unfold run, run_without_vocab, script, script_without_vocab, setup,
    pipeline, pad_vocab, py_len, select_lr_policy, call_ext, os_path_isfile,
    except_ModuleNotFoundError, print, emit, bind, ret, raise, lift.

(** The scrutinee that blocks evaluation of a stuck term. *)
Ltac head_of t :=
  lazymatch t with
  | match ?s with _ => _ end => head_of s
  | ?f _ =>
      lazymatch f with
      | match _ with _ => _ end => head_of f
      | _ => t
      end
  | _ => t
  end.

(** Destruct the scrutinee that blocks the run, in evaluation order, when it
    decides control flow (which call raises, which branch is taken), until
    the run is evaluated; matches that only compute an argument value are
    kept.  [prune] closes the branches a hypothesis rules out. *)
Ltac split_run_by prune :=
  repeat (cbn beta iota zeta;
          match goal with
          | |- context [match ?s with _ => _ end] =>
              let x := head_of s in
              lazymatch x with
              | negb _ => destruct x eqn:?
              | raises _ _ => destruct x eqn:?
              | isfile _ _ => destruct x eqn:?
              | is_ModuleNotFoundError _ => destruct x eqn:?
              | bert_checkpoint _ => destruct x eqn:?
              | String.eqb _ _ => destruct x eqn:?
              | Z.ltb _ _ => destruct x eqn:?
              | Z.leb _ _ => destruct x eqn:?
              | steps_per_epoch _ _ _ => destruct x eqn:?
              | padded_vocab_size _ => destruct x eqn:?
              end
          end;
          try (solve [prune])).

Ltac split_run := split_run_by fail.

(** Close a goal [In ev tr -> P] over a concrete trace [tr]. *)
Ltac close_in :=
  let H := fresh "Hin" in
  intro H; cbn in H;
  repeat match goal with
         | H0 : _ \/ _ |- _ => destruct H0 as [H0 | H0]
         end;
  try contradiction;
  try discriminate;
  repeat match goal with
         | H0 : ECall _ = ECall _ |- _ => injection H0; clear H0; intros; subst
         | H0 : EPrintInt _ _ = EPrintInt _ _ |- _ => injection H0; clear H0; intros; subst
         end.

(** ** C1: a missing training file *)

(** C1.  If [<data_dir>/train.txt] is not a file, the run raises
    [FileNotFoundError] with the remediation message, and the only thing it
    has done is the [isfile] test: no tokenizer, encoder, data layer or loss
    module is built, whatever the other arguments. *)
Theorem missing_train_file_raises (E : env) (a : args) :
  isfile E (path_join (data_dir a) "train.txt") = false ->
  run E a = ([EIsFile (path_join (data_dir a) "train.txt")]%list,
             inl (FileNotFoundError dataset_msg)).
Proof.
  intros Hf. unfold_script. cbn. rewrite Hf. reflexivity.
Qed.

Lemma missing_train_file_raises_witness :
  isfile no_dataset_env (path_join (data_dir default_args) "train.txt") = false /\
  run no_dataset_env default_args =
    ([EIsFile "./conll2003/train.txt"]%list, inl (FileNotFoundError dataset_msg)).
Proof.
  split; [reflexivity | apply (missing_train_file_raises no_dataset_env default_args); reflexivity].
Defined.

(** ** C9: device placement *)

(** C9.  The factory is built with placement [AllGpu] when [--local_rank]
    is given and [GPU] otherwise; [CPU] is never chosen. *)
Theorem factory_placement (E : env) (a : args) (b : backend) (r : option Z)
  (o : optimization) (p : device_type) :
  In (ECall (CNeuralModuleFactory b r o p)) (fst (run E a)) ->
  p = match local_rank a with Some _ => AllGpu | None => GPU end /\ p <> CPU.
Proof.
  unfold_script. split_run; close_in;
    destruct (local_rank a); split; congruence.
Qed.

Lemma factory_placement_witness :
  In (ECall (CNeuralModuleFactory PyTorch None mxprO0 GPU))
     (fst (run sample_env default_args)) /\ GPU = GPU /\ GPU <> CPU.
Proof.
  split; [vm_compute; tauto |].
  apply (factory_placement sample_env default_args PyTorch None mxprO0 GPU).
  vm_compute; tauto.
Defined.

(** ** C3: steps per epoch *)

(** C3, as stated: for every [n >= 0], [b > 0], [g > 0], line 157 gives
    [n / (b * g)].  It fails at [n = 2^53 + 1], [b = g = 1], a value [len]
    can return: [(2^53 + 1) / 1] rounds to the float [2^53]. *)
Lemma steps_per_epoch_floor_counterexample :
  ~ (forall n b g : Z, 0 <= n -> 0 < b -> 0 < g ->
       steps_per_epoch n b g = inr (n / (b * g))).
Proof.
  intros H. specialize (H (2 ^ 53 + 1) 1 1 ltac:(lia) ltac:(lia) ltac:(lia)).
  vm_compute in H. discriminate H.
Qed.

(** C3, amended.  For [0 <= n < 2^53] (every realistic dataset size),
    [b > 0] and [g > 0], [steps_per_epoch] is the floor division
    [n / (b * g)]. *)
Theorem steps_per_epoch_floor (n b g : Z) :
  0 <= n < 2 ^ 53 -> 0 < b -> 0 < g ->
  steps_per_epoch n b g = inr (n / (b * g)).
Proof. apply steps_per_epoch_exact. Qed.

Lemma steps_per_epoch_floor_witness :
  (0 <= 14041 < 2 ^ 53 /\ 0 < 32 /\ 0 < 2) /\
  steps_per_epoch 14041 32 2 = inr (14041 / (32 * 2)).
Proof.
  split; [lia |]. apply (steps_per_epoch_floor 14041 32 2); lia.
Defined.

(** ** C4: padded vocabulary size *)

(** C4, as stated: for every [v >= 0] line 87 gives [8 * ceil(v / 8)], a
    multiple of 8 in [[v, v + 8)].  It fails at [v = 2^53 + 1]: [v / 8]
    rounds to [2^50], and the result [2^53] is below [v]. *)
Lemma padded_vocab_round_up_counterexample :
  ~ (forall v : Z, 0 <= v ->
       exists w, padded_vocab_size v = inr w /\ w = 8 * ((v + 7) / 8) /\
                 w mod 8 = 0 /\ v <= w /\ w - v < 8).
Proof.
  intros H. destruct (H (2 ^ 53 + 1) ltac:(lia)) as [w [Hw [_ [_ [Hle _]]]]].
  vm_compute in Hw. injection Hw as <-. vm_compute in Hle. apply Hle. reflexivity.
Qed.

(** C4, amended.  For [0 <= v < 2^53] (every realistic vocabulary), line 87
    gives [w = 8 * ceil(v / 8)]: a multiple of 8 with [v <= w < v + 8]. *)
Theorem padded_vocab_round_up (v : Z) : 0 <= v < 2 ^ 53 ->
  exists w, padded_vocab_size v = inr w /\ w = 8 * ((v + 7) / 8) /\
            w mod 8 = 0 /\ v <= w /\ w - v < 8.
Proof.
  intros Hv. exists (8 * ((v + 7) / 8)).
  split; [apply padded_vocab_size_exact; exact Hv |].
  pose proof (Z.div_mod (v + 7) 8 ltac:(lia)).
  pose proof (Z.mod_pos_bound (v + 7) 8 ltac:(lia)).
  split; [reflexivity |]. split; [| lia].
  rewrite Z.mul_comm. apply Z.mod_mul. lia.
Qed.

Lemma padded_vocab_round_up_witness :
  0 <= 28996 < 2 ^ 53 /\
  exists w, padded_vocab_size 28996 = inr w /\ w = 8 * ((28996 + 7) / 8) /\
            w mod 8 = 0 /\ 28996 <= w /\ w - 28996 < 8.
Proof. split; [lia | apply (padded_vocab_round_up 28996); lia]. Defined.

(** ** C8: [vocab_size] is dead *)

Lemma padded_vocab_size_finite (v : Z) : Z.abs v < 2 ^ 1026 ->
  exists w, padded_vocab_size v = inr w.
Proof.
  intros Hv. unfold padded_vocab_size.
  destruct (py_truediv_finite v 8) as [f Hf]; [lia | |].
  - change (Z.abs 8) with 8. change (2 ^ 1026) with (2 ^ 1023 * 8) in Hv. lia.
  - rewrite Hf. eexists; reflexivity.
Qed.

(** C8, as stated: deleting line 87 never changes the run.  It does when
    [v / 8] overflows a float: with [tokenizer.vocab_size = 2^1030] the
    script raises [OverflowError] at line 87 while the script without it
    trains. *)
Lemma vocab_size_dead_counterexample :
  ~ (forall (E : env) (a : args), run E a = run_without_vocab E a).
Proof.
  intros H. specialize (H huge_vocab_env default_args).
  vm_compute in H. discriminate H.
Qed.

(** C8, amended.  [vocab_size] is read by nothing after line 87.
    (1) Whenever line 87 raises nothing for the tokenizer the run builds,
    the run with line 87 and the run without it have the same events and
    the same outcome.  (2) When it raises, the run ends right there, with
    the events of the setup and that exception.  (3) The only exception it
    can raise is [OverflowError], and only for a vocabulary size [v] with
    [|v| >= 2^1026]. *)
Theorem vocab_size_dead (E : env) (a : args) :
  ((forall tr tb tok, setup E a []%list = (tr, inr (tb, tok)) ->
      exists w, padded_vocab_size (tok_vocab_size E tok) = inr w) ->
   run E a = run_without_vocab E a) /\
  (forall tr tb tok x, setup E a []%list = (tr, inr (tb, tok)) ->
      padded_vocab_size (tok_vocab_size E tok) = inl x ->
      run E a = (tr, inl x)) /\
  (forall v x, padded_vocab_size v = inl x ->
      x = OverflowError "integer division result too large for a float" /\
      2 ^ 1026 <= Z.abs v).
Proof.
  split; [| split].
  - intros Hv. unfold run, run_without_vocab, script, script_without_vocab, bind.
    destruct (setup E a []%list) as [tr [x | [tb tok]]] eqn:Hs; [reflexivity |].
    destruct (Hv tr tb tok eq_refl) as [w Hw].
    unfold pad_vocab, lift. rewrite Hw. reflexivity.
  - intros tr tb tok x Hs Hx.
    unfold run, script, bind. rewrite Hs.
    unfold pad_vocab, lift. rewrite Hx. reflexivity.
  - intros v x Hx. split.
    + revert Hx. unfold padded_vocab_size.
      destruct (py_truediv v 8) as [e |] eqn:Hq; [| discriminate].
      intros H; injection H as <-. revert Hq. unfold py_truediv.
      replace (8 =? 0) with false by reflexivity.
      destruct (v =? 0); [discriminate |].
      destruct (mag_div (Z.abs v) (Z.abs 8)) as [m e'].
      destruct ((0 <=? e') && (2 ^ 1024 <=? m * 2 ^ e'));
        [intros H; injection H as <-; reflexivity | discriminate].
    + destruct (Z_lt_le_dec (Z.abs v) (2 ^ 1026)) as [Hl | Hl]; [| exact Hl].
      destruct (padded_vocab_size_finite v Hl) as [w Hw]. congruence.
Qed.

Lemma vocab_size_dead_witness :
  (setup sample_env default_args []%list =
     (fst (setup sample_env default_args []%list),
      inr (true, TokNemoBert "bert-base-cased")) /\
   run sample_env default_args = run_without_vocab sample_env default_args) /\
  (setup huge_vocab_env default_args []%list =
     (fst (setup huge_vocab_env default_args []%list),
      inr (true, TokNemoBert "bert-base-cased")) /\
   padded_vocab_size (tok_vocab_size huge_vocab_env (TokNemoBert "bert-base-cased")) =
     inl (OverflowError "integer division result too large for a float") /\
   run huge_vocab_env default_args =
     (fst (setup huge_vocab_env default_args []%list),
      inl (OverflowError "integer division result too large for a float"))).
Proof.
  assert (Hs1 : setup sample_env default_args []%list =
                  (fst (setup sample_env default_args []%list),
                   inr (true, TokNemoBert "bert-base-cased")))
    by (vm_compute; reflexivity).
  assert (Hs2 : setup huge_vocab_env default_args []%list =
                  (fst (setup huge_vocab_env default_args []%list),
                   inr (true, TokNemoBert "bert-base-cased")))
    by (vm_compute; reflexivity).
  assert (Hp : padded_vocab_size (tok_vocab_size huge_vocab_env (TokNemoBert "bert-base-cased")) =
                 inl (OverflowError "integer division result too large for a float"))
    by (vm_compute; reflexivity).
  destruct (vocab_size_dead sample_env default_args) as [H1 _].
  destruct (vocab_size_dead huge_vocab_env default_args) as [_ [H2 _]].
  split; [split; [exact Hs1 |] | split; [exact Hs2 | split; [exact Hp |]]].
  - apply H1. intros tr tb tok Hs. rewrite Hs1 in Hs. injection Hs as _ _ <-.
    eexists; vm_compute; reflexivity.
  - exact (H2 _ _ _ _ Hs2 Hp).
Defined.

(** ** C2: the learning-rate policy check *)

Lemma steps_per_epoch_finite (n b g : Z) : b * g <> 0 -> 0 <= n < 2 ^ 63 ->
  exists s, steps_per_epoch n b g = inr s.
Proof.
  intros Hd Hn. unfold steps_per_epoch.
  destruct (py_truediv_finite n (b * g) Hd) as [f Hf].
  - pose proof (pow2_le_mono 63 1023 ltac:(lia)). lia.
  - rewrite Hf. eexists; reflexivity.
Qed.

(** C2.  When the run gets as far as the policy check (the training file
    exists, no framework call raises, [batch_size * num_gpus <> 0], [len]
    returns a valid size and [v / 8] is a finite float), it raises the
    [ValueError] exactly when [--lr_policy] is not one of [lr_warmup],
    [lr_poly], [lr_cosine]; for those three it completes. *)
Theorem lr_policy_value_error (E : env) (a : args) :
  isfile E (path_join (data_dir a) "train.txt") = true ->
  (forall c, raises E c = None) ->
  batch_size a * num_gpus a <> 0 ->
  0 <= train_len E < 2 ^ 63 ->
  (forall t, Z.abs (tok_vocab_size E t) < 2 ^ 1026) ->
  (snd (run E a) = inl (ValueError lr_policy_msg) <->
     ~ In (lr_policy a) lr_policies) /\
  (In (lr_policy a) lr_policies -> snd (run E a) = inr tt).
Proof.
  intros Hf Hno Hbg Hlen Hv.
  destruct (steps_per_epoch_finite (train_len E) (batch_size a) (num_gpus a)
              Hbg Hlen) as [spe Hspe].
  destruct (padded_vocab_size_finite _ (Hv (TokNemoBert (pretrained_bert_model a))))
    as [w1 Hw1].
  destruct (padded_vocab_size_finite _
              (Hv (TokSentencePiece "tokenizer.model" special_tokens))) as [w2 Hw2].
  unfold lr_policies. unfold_script.
  rewrite Hf.
  split_run_by ltac:(first
    [ discriminate
    | match goal with
      | H : raises _ ?c = Some _ |- _ => rewrite (Hno c) in H; discriminate
      end
    | match goal with
      | H : steps_per_epoch _ _ _ = inl _ |- _ => rewrite Hspe in H; discriminate
      end
    | match goal with
      | H : padded_vocab_size _ = inl _ |- _ =>
          first [rewrite Hw1 in H | rewrite Hw2 in H]; discriminate
      end
    | match goal with
      | H : (_ <? _) = true |- _ => apply Z.ltb_lt in H; lia
      end
    | match goal with
      | H : (_ <=? _) = true |- _ => apply Z.leb_le in H; lia
      end ]).
  all: rewrite ?String.eqb_eq, ?String.eqb_neq in *; cbn.
  all: intuition congruence.
Qed.

Lemma lr_policy_value_error_witness :
  (isfile sample_env (path_join (data_dir default_args) "train.txt") = true /\
   (forall c, raises sample_env c = None) /\
   batch_size default_args * num_gpus default_args <> 0 /\
   0 <= train_len sample_env < 2 ^ 63 /\
   (forall t, Z.abs (tok_vocab_size sample_env t) < 2 ^ 1026)) /\
  ((snd (run sample_env default_args) = inl (ValueError lr_policy_msg) <->
      ~ In (lr_policy default_args) lr_policies) /\
   (In (lr_policy default_args) lr_policies ->
      snd (run sample_env default_args) = inr tt)).
Proof.
  assert (H1 : isfile sample_env (path_join (data_dir default_args) "train.txt") = true)
    by reflexivity.
  assert (H2 : forall c, raises sample_env c = None) by reflexivity.
  assert (H3 : batch_size default_args * num_gpus default_args <> 0) by (cbn; lia).
  assert (H4 : 0 <= train_len sample_env < 2 ^ 63) by (cbn; lia).
  assert (H5 : forall t, Z.abs (tok_vocab_size sample_env t) < 2 ^ 1026)
    by (intros t; cbn; lia).
  split; [tauto |].
  exact (lr_policy_value_error sample_env default_args H1 H2 H3 H4 H5).
Defined.

(** ** C6: the schedule *)

(** C6.  The schedule object the run builds is the one the spec's mapping
    names for [--lr_policy]: [WarmupAnnealing] with warmup ratio
    [--lr_warmup_proportion] for [lr_warmup], [SquareAnnealing] for
    [lr_poly], [CosineAnnealing] for [lr_cosine], each over
    [num_epochs * steps_per_epoch] steps; the training driver gets that
    same object. *)
Theorem lr_schedule_selection (E : env) (a : args) (p : lr_schedule) :
  In (ECall (CLrPolicy p)) (fst (run E a)) ->
  exists spe,
    steps_per_epoch (train_len E) (batch_size a) (num_gpus a) = inr spe /\
    spec_lr_schedule (lr_policy a) (num_epochs a * spe)
      (lr_warmup_proportion a) = Some p /\
    forall s p' o n l, In (ECall (CTrain s p' o n l)) (fst (run E a)) -> p' = p.
Proof.
  unfold_script. split_run.
  all: close_in.
  all: eexists; split; [reflexivity |].
  all: unfold spec_lr_schedule;
       repeat match goal with
              | H : String.eqb ?x ?y = _ |- context [String.eqb ?x ?y] => rewrite H
              end;
       split; [reflexivity |].
  all: intros ? ? ? ? ?; close_in; reflexivity.
Qed.

Lemma lr_schedule_selection_witness :
  In (ECall (CLrPolicy (WarmupAnnealing 438 0.1%float)))
     (fst (run sample_env default_args)) /\
  exists spe,
    steps_per_epoch (train_len sample_env) (batch_size default_args)
      (num_gpus default_args) = inr spe /\
    spec_lr_schedule (lr_policy default_args) (num_epochs default_args * spe)
      (lr_warmup_proportion default_args) = Some (WarmupAnnealing 438 0.1%float) /\
    forall s p' o n l, In (ECall (CTrain s p' o n l))
                          (fst (run sample_env default_args)) ->
                       p' = WarmupAnnealing 438 0.1%float.
Proof.
  assert (H : In (ECall (CLrPolicy (WarmupAnnealing 438 0.1%float)))
                 (fst (run sample_env default_args))) by (vm_compute; tauto).
  split; [exact H | exact (lr_schedule_selection sample_env default_args _ H)].
Defined.
(** ** C7: the order of the stages *)

(** C7, as stated: on every successful run the events follow the spec's
    eight stages in order.  They do not: the evaluation data layer (a
    stage 4 event) is built after the training pipeline has been connected
    (stage 5), so the stage sequence of the default run goes back from 5
    to 4. *)
Lemma stage_order_counterexample :
  ~ (forall (E : env) (a : args), snd (run E a) = inr tt ->
       nondecreasing (stages spec_stage (fst (run E a))) = true).
Proof.
  intros H. specialize (H sample_env default_args).
  vm_compute in H. discriminate (H eq_refl).
Qed.

(** C7, amended.  On every successful run the events go through the
    source's stages in this order, each stage once: dataset check;
    tensorboard writer and factory; tokenizer and encoder; training data
    layer and loss module; connecting the training pipeline; evaluation
    data layer; connecting the evaluation pipeline; callbacks; schedule;
    training.  The training driver is called exactly once, as the last
    event. *)
Theorem stage_order (E : env) (a : args) :
  snd (run E a) = inr tt ->
  collapse (stages source_stage (fst (run E a))) = [2; 3; 4; 5; 6; 7; 8; 9; 10; 11]%list /\
  is_train_call (last (fst (run E a)) (EPrint "")) = true /\
  List.length (filter is_train_call (fst (run E a))) = 1%nat.
Proof.
  unfold_script. split_run.
  all: intros Hs; cbn in Hs; try discriminate Hs.
  all: cbn; repeat split; reflexivity.
Qed.

Lemma stage_order_witness :
  snd (run sample_env default_args) = inr tt /\
  collapse (stages source_stage (fst (run sample_env default_args))) =
    [2; 3; 4; 5; 6; 7; 8; 9; 10; 11]%list /\
  is_train_call (last (fst (run sample_env default_args)) (EPrint "")) = true /\
  List.length (filter is_train_call (fst (run sample_env default_args))) = 1%nat.
Proof.
  assert (H : snd (run sample_env default_args) = inr tt) by (vm_compute; reflexivity).
  split; [exact H | exact (stage_order sample_env default_args H)].
Defined.
(** ** C5: which failures the script handles *)

Lemma py_truediv_inl (n d : Z) (x : exn) :
  py_truediv n d = inl x ->
  x = ZeroDivisionError "division by zero" \/
  x = OverflowError "integer division result too large for a float".
Proof.
  unfold py_truediv.
  destruct (d =? 0); [intros H; injection H; auto |].
  destruct (n =? 0); [discriminate |].
  destruct (mag_div (Z.abs n) (Z.abs d)) as [m e].
  destruct ((0 <=? e) && (2 ^ 1024 <=? m * 2 ^ e)); [intros H; injection H; auto | discriminate].
Qed.

Lemma steps_per_epoch_inl (n b g : Z) (x : exn) :
  steps_per_epoch n b g = inl x ->
  x = ZeroDivisionError "division by zero" \/
  x = OverflowError "integer division result too large for a float".
Proof.
  unfold steps_per_epoch. destruct (py_truediv n (b * g)) eqn:Hq; [| discriminate].
  intros H; injection H as <-. exact (py_truediv_inl _ _ _ Hq).
Qed.

Lemma padded_vocab_size_inl (v : Z) (x : exn) :
  padded_vocab_size v = inl x ->
  x = ZeroDivisionError "division by zero" \/
  x = OverflowError "integer division result too large for a float".
Proof.
  unfold padded_vocab_size. destruct (py_truediv v 8) eqn:Hq; [| discriminate].
  intros H; injection H as <-. exact (py_truediv_inl _ _ _ Hq).
Qed.

(** C5, as stated: no exception is caught, so an external call that raises
    ends the run with its exception.  Not when tensorboardX is missing: its
    import raises [ModuleNotFoundError], which lines 51-53 catch, and the
    run trains. *)
Lemma no_exception_caught_counterexample :
  ~ (forall (E : env) (a : args) (c : call) (x : exn),
       raises E c = Some x -> In (ECall c) (fst (run E a)) ->
       snd (run E a) = inl x).
Proof.
  intros H.
  specialize (H no_tensorboard_env default_args CImportTensorboardX
                (ModuleNotFoundError "No module named 'tensorboardX'")
                eq_refl).
  vm_compute in H. discriminate (H (or_intror (or_introl eq_refl))).
Qed.

(** Close a branch whose guards contradict the hypotheses, also through a
    [negb] test. *)
Ltac prune_negb :=
  first [ congruence
        | match goal with
          | H : negb ?b = _ |- _ => destruct b eqn:?; cbn in H; congruence
          end ].

(** C5, amended.  (a) The one exception the script catches is a
    [ModuleNotFoundError] from the tensorboardX import or
    [SummaryWriter]: any other exception of an external call ends the run,
    the call being the last event.  (b) A failed run fails with the
    exception of its last external call, with one of the two explicit
    checks ([FileNotFoundError] for the training file, [ValueError] for
    the policy name), or with an error of Python's own arithmetic: the
    [ZeroDivisionError] or [OverflowError] of a true division (line 87 or
    157) or an error of [len()] on a bad [__len__] result (line 156).
    (c) When the training file exists and the tensorboardX import, or,
    the import succeeding, [SummaryWriter] on [tensorboard_filename]
    raises a [ModuleNotFoundError], the error is caught: the run prints
    "Tensorboard is not available.", goes on to build the factory, and
    every [SimpleLossLoggerCallback] and [EvaluatorCallback] it builds
    gets [tb_writer = None]. *)
Theorem exceptions_handled (E : env) (a : args) :
  (forall (c : call) (x : exn),
     raises E c = Some x -> In (ECall c) (fst (run E a)) ->
     (is_tensorboard_call c = true /\ is_ModuleNotFoundError x = true) \/
     (last (fst (run E a)) (EPrint "") = ECall c /\ snd (run E a) = inl x)) /\
  (forall x : exn,
     snd (run E a) = inl x ->
     (exists c, last (fst (run E a)) (EPrint "") = ECall c /\ raises E c = Some x) \/
     x = FileNotFoundError dataset_msg \/
     x = ValueError lr_policy_msg \/
     x = ZeroDivisionError "division by zero" \/
     x = OverflowError "integer division result too large for a float" \/
     x = ValueError "__len__() should return >= 0" \/
     x = OverflowError "cannot fit 'int' into an index-sized integer") /\
  (forall x : exn,
     isfile E (path_join (data_dir a) "train.txt") = true ->
     is_ModuleNotFoundError x = true ->
     (raises E CImportTensorboardX = Some x \/
      (raises E CImportTensorboardX = None /\
       raises E (CSummaryWriter (tensorboard_filename a)) = Some x)) ->
     In (EPrint "Tensorboard is not available.") (fst (run E a)) /\
     (exists bk r o p, In (ECall (CNeuralModuleFactory bk r o p)) (fst (run E a))) /\
     (forall h, In (ECall (CSimpleLossLoggerCallback h)) (fst (run E a)) -> h = false) /\
     (forall h o s, In (ECall (CEvaluatorCallback h o s)) (fst (run E a)) -> h = false)).
Proof.
  unfold_script. split; [| split].
  - intros c x Hr. split_run.
    all: close_in.
    all: try match goal with
             | H : raises _ ?c = None, H' : raises _ ?c = Some _ |- _ =>
                 rewrite H' in H; discriminate H
             end.
    all: first [ left; split; [reflexivity | congruence]
               | right; cbn; split; [reflexivity | congruence] ].
  - intros x. split_run.
    all: intros Hx; cbn in Hx; try discriminate Hx.
    all: injection Hx; clear Hx; intros; subst.
    all: first [ left; eexists; split; [cbn; reflexivity | eassumption]
               | match goal with
                 | H : steps_per_epoch _ _ _ = inl _ |- _ =>
                     apply steps_per_epoch_inl in H; destruct H as [-> | ->]
                 | H : padded_vocab_size _ = inl _ |- _ =>
                     apply padded_vocab_size_inl in H; destruct H as [-> | ->]
                 end; right;
                 repeat (first [left; reflexivity | right]); reflexivity
               | right; repeat (first [left; reflexivity | right]); reflexivity ].
  - intros x Hf Hm Hr.
    destruct Hr as [Hr | [Hr1 Hr2]];
      split_run_by prune_negb.
    all: split; [cbn; repeat (first [left; reflexivity | right]) |].
    all: split; [do 4 eexists; cbn; repeat (first [left; reflexivity | right]) |].
    all: split; [intros ?; close_in; reflexivity | intros ? ? ?; close_in; reflexivity].
Qed.

Lemma exceptions_handled_witness :
  ((raises no_tensorboard_env CImportTensorboardX =
      Some (ModuleNotFoundError "No module named 'tensorboardX'") /\
    In (ECall CImportTensorboardX) (fst (run no_tensorboard_env default_args))) /\
   ((is_tensorboard_call CImportTensorboardX = true /\
     is_ModuleNotFoundError (ModuleNotFoundError "No module named 'tensorboardX'") = true) \/
    (last (fst (run no_tensorboard_env default_args)) (EPrint "") = ECall CImportTensorboardX /\
     snd (run no_tensorboard_env default_args) =
       inl (ModuleNotFoundError "No module named 'tensorboardX'")))) /\
  (In (EPrint "Tensorboard is not available.") (fst (run no_tensorboard_env default_args)) /\
   (exists bk r o p, In (ECall (CNeuralModuleFactory bk r o p))
                       (fst (run no_tensorboard_env default_args))) /\
   (forall h, In (ECall (CSimpleLossLoggerCallback h))
                 (fst (run no_tensorboard_env default_args)) -> h = false) /\
   (forall h o s, In (ECall (CEvaluatorCallback h o s))
                     (fst (run no_tensorboard_env default_args)) -> h = false)).
Proof.
  assert (H1 : raises no_tensorboard_env CImportTensorboardX =
                 Some (ModuleNotFoundError "No module named 'tensorboardX'"))
    by reflexivity.
  assert (H2 : In (ECall CImportTensorboardX)
                 (fst (run no_tensorboard_env default_args)))
    by (vm_compute; tauto).
  destruct (exceptions_handled no_tensorboard_env default_args) as [Ha [_ Hc]].
  split; [split; [split; [exact H1 | exact H2] | exact (Ha _ _ H1 H2)] |].
  exact (Hc (ModuleNotFoundError "No module named 'tensorboardX'")
            ltac:(vm_compute; reflexivity) eq_refl (or_introl H1)).
Defined.

(** ** C10: tokenizer and encoder *)

(** C10.  The tokenizer and encoder calls of a run are the ones
    [spec_encoder_calls] names for [--bert_checkpoint]: a run makes a
    prefix of them (it stops at the first that raises) and a successful
    run makes all of them.  With a checkpoint, [--pretrained_bert_model]
    plays no part: changing it leaves the run unchanged. *)
Theorem encoder_selection (E : env) (a : args) :
  firstn (List.length (filter is_encoder_call (fst (run E a)))) (spec_encoder_calls a) =
    filter is_encoder_call (fst (run E a)) /\
  (snd (run E a) = inr tt ->
   filter is_encoder_call (fst (run E a)) = spec_encoder_calls a) /\
  (forall ckpt name, bert_checkpoint a = Some ckpt ->
   run E (with_pretrained_bert_model name a) = run E a).
Proof.
  split; [| split].
  3: intros ckpt name H; destruct a; cbn in H; subst; reflexivity.
  all: unfold spec_encoder_calls; unfold_script; split_run.
  all: try (intros Hs; cbn in Hs; try discriminate Hs).
  all: reflexivity.
Qed.

Lemma encoder_selection_witness :
  (snd (run sample_env checkpoint_args) = inr tt /\
   filter is_encoder_call (fst (run sample_env checkpoint_args)) =
     spec_encoder_calls checkpoint_args) /\
  (bert_checkpoint checkpoint_args = Some "bert.ckpt" /\
   run sample_env (with_pretrained_bert_model "bert-large-cased" checkpoint_args) =
     run sample_env checkpoint_args).
Proof.
  assert (H1 : snd (run sample_env checkpoint_args) = inr tt) by (vm_compute; reflexivity).
  assert (H2 : bert_checkpoint checkpoint_args = Some "bert.ckpt") by reflexivity.
  pose proof (encoder_selection sample_env checkpoint_args) as [_ [Hs Hn]].
  split; [split; [exact H1 | exact (Hs H1)] | split; [exact H2 |]].
  exact (Hn "bert.ckpt" "bert-large-cased" H2).
Defined.
(** * Further properties of the script *)

(** ** Invariants of a run, by the structure of the program *)

Section Safety.
Variable E : env.

Lemma safe_ret {A} (P : event -> Prop) (Q : A -> Prop) (x : A) :
  Q x -> safe P Q (ret x).
Proof.
  intros HQ tr Htr. unfold ret; cbn. split; [exact Htr |].
  intros y Hy. injection Hy as <-. exact HQ.
Qed.

Lemma safe_raise {A} (P : event -> Prop) (Q : A -> Prop) (e : exn) :
  safe P Q (raise e).
Proof. intros tr Htr. unfold raise; cbn. split; [exact Htr | discriminate]. Qed.

Lemma safe_lift {A} (P : event -> Prop) (Q : A -> Prop) (r : exn + A) :
  (forall x, r = inr x -> Q x) -> safe P Q (lift r).
Proof. intros HQ tr Htr. unfold lift; cbn. split; [exact Htr | exact HQ]. Qed.

Lemma safe_emit (P : event -> Prop) (Q : unit -> Prop) (ev : event) :
  P ev -> Q tt -> safe P Q (emit ev).
Proof.
  intros Hev HQ tr Htr. unfold emit; cbn. split.
  - intros ev' Hin. apply in_app_or in Hin. destruct Hin as [Hin | [<- | []]].
    + exact (Htr ev' Hin).
    + exact Hev.
  - intros [] _. exact HQ.
Qed.

Lemma safe_print (P : event -> Prop) (Q : unit -> Prop) (s : string) :
  P (EPrint s) -> Q tt -> safe P Q (print s).
Proof. apply safe_emit. Qed.

Lemma safe_call (P : event -> Prop) (Q : unit -> Prop) (c : call) :
  P (ECall c) -> (raises E c = None -> Q tt) -> safe P Q (call_ext E c).
Proof.
  intros Hev HQ tr Htr. unfold call_ext; cbn. split.
  - intros ev' Hin. apply in_app_or in Hin. destruct Hin as [Hin | [<- | []]].
    + exact (Htr ev' Hin).
    + exact Hev.
  - destruct (raises E c); [discriminate | intros [] _; exact (HQ eq_refl)].
Qed.

Lemma safe_isfile (P : event -> Prop) (Q : bool -> Prop) (p : string) :
  P (EIsFile p) -> Q (isfile E p) -> safe P Q (os_path_isfile E p).
Proof.
  intros Hev HQ tr Htr. unfold os_path_isfile; cbn. split.
  - intros ev' Hin. apply in_app_or in Hin. destruct Hin as [Hin | [<- | []]].
    + exact (Htr ev' Hin).
    + exact Hev.
  - intros b Hb. injection Hb as <-. exact HQ.
Qed.

Lemma safe_bind {A B} (P : event -> Prop) (R : A -> Prop) (Q : B -> Prop)
    (m : M A) (f : A -> M B) :
  safe P R m -> (forall x, R x -> safe P Q (f x)) -> safe P Q (bind m f).
Proof.
  intros Hm Hf tr Htr. unfold bind.
  destruct (Hm tr Htr) as [Hev Hres].
  destruct (m tr) as [tr' [e | x]]; cbn in *.
  - split; [exact Hev | discriminate].
  - exact (Hf x (Hres x eq_refl) tr' Hev).
Qed.

Lemma safe_bind_call {B} (P : event -> Prop) (Q : B -> Prop) (c : call)
    (f : unit -> M B) :
  P (ECall c) -> (raises E c = None -> safe P Q (f tt)) ->
  safe P Q (bind (call_ext E c) f).
Proof.
  intros Hev Hf. apply safe_bind with (R := fun _ => raises E c = None).
  - apply safe_call; [exact Hev | exact (fun H => H)].
  - intros [] Hr. exact (Hf Hr).
Qed.

Lemma safe_bind_lift {A B} (P : event -> Prop) (Q : B -> Prop) (r : exn + A)
    (f : A -> M B) :
  (forall x, r = inr x -> safe P Q (f x)) -> safe P Q (bind (lift r) f).
Proof.
  intros Hf. apply safe_bind with (R := fun x => r = inr x).
  - apply safe_lift. exact (fun x H => H).
  - exact Hf.
Qed.

Lemma safe_bind_py_len {B} (P : event -> Prop) (Q : B -> Prop) (f : Z -> M B) :
  P (ECall CLen) ->
  (forall n, raises E CLen = None -> n = train_len E -> 0 <= n < 2 ^ 63 ->
             safe P Q (f n)) ->
  safe P Q (bind (py_len E) f).
Proof.
  intros Hev Hf.
  apply safe_bind with
    (R := fun n => raises E CLen = None /\ n = train_len E /\ 0 <= n < 2 ^ 63).
  - unfold py_len. apply safe_bind_call; [exact Hev | intros Hr]. cbn zeta.
    destruct (Z.ltb_spec (train_len E) 0); [apply safe_raise |].
    destruct (Z.leb_spec (2 ^ 63) (train_len E)); [apply safe_raise |].
    apply safe_ret. split; [exact Hr | split; [reflexivity | lia]].
  - intros n (Hr & Hn & Hb). exact (Hf n Hr Hn Hb).
Qed.

Lemma safe_except {A} (P : event -> Prop) (Q : A -> Prop) (body handler : M A) :
  safe P Q body ->
  (forall tr tr' x, body tr = (tr', inl x) -> is_ModuleNotFoundError x = true ->
                    safe P Q handler) ->
  safe P Q (except_ModuleNotFoundError body handler).
Proof.
  intros Hb Hh tr Htr. unfold except_ModuleNotFoundError.
  destruct (Hb tr Htr) as [Hev Hres].
  destruct (body tr) as [tr' [x | y]] eqn:Heq; cbn in *.
  - destruct (is_ModuleNotFoundError x) eqn:Hx.
    + exact (Hh tr tr' x Heq Hx tr' Hev).
    + split; [exact Hev | discriminate].
  - split; [exact Hev | exact Hres].
Qed.

(** A result property proved apart from the event property. *)
Lemma safe_result {A} (P : event -> Prop) (Q : A -> Prop) (m : M A) :
  safe P (fun _ => True) m ->
  (forall tr tr' x, m tr = (tr', inr x) -> Q x) -> safe P Q m.
Proof.
  intros Hm HQ tr Htr. destruct (Hm tr Htr) as [Hev _]. split; [exact Hev |].
  intros x Hx. destruct (m tr) as [tr' r] eqn:Heq; cbn in Hx; subst r.
  exact (HQ tr tr' x Heq).
Qed.

Lemma safe_run_events (P : event -> Prop) (Q : unit -> Prop) (a : args) :
  safe P Q (script E a) ->
  (forall ev, In ev (fst (run E a)) -> P ev) /\
  (forall x, snd (run E a) = inr x -> Q x).
Proof. intros H. apply H. intros ev []. Qed.

End Safety.

(** Walk the program: one rule per construct, branching on [if] and
    [match]. *)
Ltac safe_run :=
  repeat (cbn beta iota zeta;
          match goal with
          | |- safe _ _ (bind (call_ext _ _) _) =>
              apply safe_bind_call; [| intros ?Hc]
          | |- safe _ _ (bind (lift _) _) =>
              apply safe_bind_lift; intros ?x ?Hl
          | |- safe _ _ (bind (py_len _) _) =>
              apply safe_bind_py_len; [| intros ?n ?Hc ?Hn ?Hb]
          | |- safe _ _ (bind _ _) =>
              apply safe_bind with (R := fun _ => True); [| intros ?x _]
          | |- safe _ _ (ret _) => apply safe_ret
          | |- safe _ _ (raise _) => apply safe_raise
          | |- safe _ _ (lift _) => apply safe_lift; intros ?x ?Hl
          | |- safe _ _ (print _) => apply safe_print
          | |- safe _ _ (emit _) => apply safe_emit
          | |- safe _ _ (call_ext _ _) => apply safe_call; [| intros ?Hc]
          | |- safe _ _ (os_path_isfile _ _) => apply safe_isfile
          | |- safe _ _ (except_ModuleNotFoundError _ _) =>
              apply safe_except; [| intros ?tr ?tr' ?x ?Hbody ?Hmnf]
          | |- safe _ _ (if ?b then _ else _) => destruct b eqn:?
          | |- safe _ _ (match ?x with _ => _ end) => destruct x eqn:?
          end).

Ltac unfold_program := unfold script, setup, pipeline, pad_vocab.

(** ** The data layers (lines 91-100, 125-134) *)

(** Both data layers are built with the script's [--max_seq_length],
    [--batch_size] and [--local_rank], with [is_training = True],
    [shuffle = False] and no workers; the training layer reads
    [<data_dir>/train.txt] and the evaluation layer
    [<data_dir>/dev.txt]. *)
Theorem data_layer_args (E : env) (a : args) (s : split) (p : string)
    (m : Z) (t : bool) (b : Z) (sh : bool) (w : Z) (r : option Z) :
  In (ECall (CBertNERDataLayer s p m t b sh w r)) (fst (run E a)) ->
  p = path_join (data_dir a) (match s with Train => "train.txt" | Eval => "dev.txt" end) /\
  m = max_seq_length a /\ t = true /\ b = batch_size a /\ sh = false /\
  w = 0 /\ r = local_rank a.
Proof.
  intros H.
  refine (proj1 (safe_run_events E
     (fun ev => match ev with
             | ECall (CBertNERDataLayer s p m t b sh w r) =>
                 p = path_join (data_dir a)
                       (match s with Train => "train.txt" | Eval => "dev.txt" end) /\
                 m = max_seq_length a /\ t = true /\ b = batch_size a /\
                 sh = false /\ w = 0 /\ r = local_rank a
             | _ => True
             end) (fun _ => True) a _) _ H).
  unfold_program. safe_run.
  all: cbn; intros; repeat split.
Qed.

Lemma data_layer_args_witness :
  In (ECall (CBertNERDataLayer Eval "./conll2003/dev.txt" 128 true 32 false 0 None))
     (fst (run sample_env default_args)) /\
  "./conll2003/dev.txt" = path_join (data_dir default_args) "dev.txt" /\
  128 = max_seq_length default_args /\ true = true /\
  32 = batch_size default_args /\ false = false /\ 0 = 0 /\
  None = local_rank default_args.
Proof.
  assert (H : In (ECall (CBertNERDataLayer Eval "./conll2003/dev.txt" 128 true 32 false 0 None))
                 (fst (run sample_env default_args))) by (vm_compute; tauto).
  split; [exact H | exact (data_layer_args sample_env default_args _ _ _ _ _ _ _ _ H)].
Defined.

(** ** The dataset test (lines 41-42) *)

(** The only file whose existence the script tests is
    [<data_dir>/train.txt]: [dev.txt] is read by the evaluation data layer
    without being tested. *)
Theorem only_train_file_checked (E : env) (a : args) (p : string) :
  In (EIsFile p) (fst (run E a)) -> p = path_join (data_dir a) "train.txt".
Proof.
  intros H.
  refine (proj1 (safe_run_events E
     (fun ev => match ev with
             | EIsFile p => p = path_join (data_dir a) "train.txt"
             | _ => True
             end) (fun _ => True) a _) _ H).
  unfold_program. safe_run.
  all: cbn; intros; repeat split.
Qed.

Lemma only_train_file_checked_witness :
  In (EIsFile "./conll2003/train.txt") (fst (run sample_env default_args)) /\
  "./conll2003/train.txt" = path_join (data_dir default_args) "train.txt".
Proof.
  assert (H : In (EIsFile "./conll2003/train.txt") (fst (run sample_env default_args)))
    by (vm_compute; tauto).
  split; [exact H | exact (only_train_file_checked sample_env default_args _ H)].
Defined.

(** ** The loss module (lines 105-109) *)

(** The loss module is built with the encoder's hidden size as [d_model],
    one label per tag of the training data, and [--classification_dropout]. *)
Theorem loss_module_args (E : env) (a : args) (d n : Z) (dr : float) :
  In (ECall (CTokenClassificationLoss d n dr)) (fst (run E a)) ->
  d = hidden_size E /\ n = num_tag_ids E /\ dr = classification_dropout a.
Proof.
  intros H.
  refine (proj1 (safe_run_events E
     (fun ev => match ev with
             | ECall (CTokenClassificationLoss d n dr) =>
                 d = hidden_size E /\ n = num_tag_ids E /\
                 dr = classification_dropout a
             | _ => True
             end) (fun _ => True) a _) _ H).
  unfold_program. safe_run.
  all: cbn; intros; repeat split.
Qed.

Lemma loss_module_args_witness :
  In (ECall (CTokenClassificationLoss 768 9 0.1%float)) (fst (run sample_env default_args)) /\
  (768 = hidden_size sample_env /\ 9 = num_tag_ids sample_env /\
   0.1%float = classification_dropout default_args).
Proof.
  assert (H : In (ECall (CTokenClassificationLoss 768 9 0.1%float))
                 (fst (run sample_env default_args))) by (vm_compute; tauto).
  split; [exact H | exact (loss_module_args sample_env default_args _ _ _ H)].
Defined.

(** ** The factory (lines 60-70) *)

(** The factory runs the PyTorch backend with [--local_rank], at
    optimization level [mxprO1] when [--mixed_precision] is given and
    [mxprO0] otherwise: never [mxprO2] or [mxprO3]. *)
Theorem factory_args (E : env) (a : args) (bk : backend) (r : option Z)
    (o : optimization) (p : device_type) :
  In (ECall (CNeuralModuleFactory bk r o p)) (fst (run E a)) ->
  bk = PyTorch /\ r = local_rank a /\
  o = (if mixed_precision a then mxprO1 else mxprO0) /\
  o <> mxprO2 /\ o <> mxprO3.
Proof.
  intros H.
  refine (proj1 (safe_run_events E
     (fun ev => match ev with
             | ECall (CNeuralModuleFactory bk r o p) =>
                 bk = PyTorch /\ r = local_rank a /\
                 o = (if mixed_precision a then mxprO1 else mxprO0) /\
                 o <> mxprO2 /\ o <> mxprO3
             | _ => True
             end) (fun _ => True) a _) _ H).
  unfold_program. safe_run.
  all: cbn; intros; repeat split; destruct (mixed_precision a); discriminate.
Qed.

Lemma factory_args_witness :
  In (ECall (CNeuralModuleFactory PyTorch None mxprO0 GPU))
     (fst (run sample_env default_args)) /\
  (PyTorch = PyTorch /\ None = local_rank default_args /\
   mxprO0 = (if mixed_precision default_args then mxprO1 else mxprO0) /\
   mxprO0 <> mxprO2 /\ mxprO0 <> mxprO3).
Proof.
  assert (H : In (ECall (CNeuralModuleFactory PyTorch None mxprO0 GPU))
                 (fst (run sample_env default_args))) by (vm_compute; tauto).
  split; [exact H | exact (factory_args sample_env default_args _ _ _ _ H)].
Defined.

(** ** The evaluation callback and the training call (lines 156-188) *)

(** The evaluation callback writes to [--output_filename] and evaluates
    every [steps_per_epoch] steps, where [steps_per_epoch] is computed from
    the length [len(train_data_layer)] returned, which lies in
    [[0, 2^63)]. *)
Theorem evaluator_args (E : env) (a : args) (h : bool) (o : string) (s : Z) :
  In (ECall (CEvaluatorCallback h o s)) (fst (run E a)) ->
  o = output_filename a /\
  steps_per_epoch (train_len E) (batch_size a) (num_gpus a) = inr s /\
  0 <= train_len E < 2 ^ 63.
Proof.
  intros H.
  refine (proj1 (safe_run_events E
     (fun ev => match ev with
             | ECall (CEvaluatorCallback h o s) =>
                 o = output_filename a /\
                 steps_per_epoch (train_len E) (batch_size a) (num_gpus a) = inr s /\
                 0 <= train_len E < 2 ^ 63
             | _ => True
             end) (fun _ => True) a _) _ H).
  unfold_program. safe_run.
  all: cbn; intros; subst; repeat split; assumption || lia.
Qed.

Lemma evaluator_args_witness :
  In (ECall (CEvaluatorCallback true "output.txt" 438))
     (fst (run sample_env default_args)) /\
  ("output.txt" = output_filename default_args /\
   steps_per_epoch (train_len sample_env) (batch_size default_args)
     (num_gpus default_args) = inr 438 /\
   0 <= train_len sample_env < 2 ^ 63).
Proof.
  assert (H : In (ECall (CEvaluatorCallback true "output.txt" 438))
                 (fst (run sample_env default_args))) by (vm_compute; tauto).
  split; [exact H | exact (evaluator_args sample_env default_args _ _ _ H)].
Defined.

(** The training driver optimizes the training loss with
    [--optimizer_kind], [--num_epochs] and [--lr], under the schedule
    [select_lr_policy] builds from the computed [steps_per_epoch]. *)
Theorem train_call_args (E : env) (a : args) (s : split) (p : lr_schedule)
    (o : string) (n : Z) (l : float) :
  In (ECall (CTrain s p o n l)) (fst (run E a)) ->
  s = Train /\ o = optimizer_kind a /\ n = num_epochs a /\ l = lr a /\
  exists spe, steps_per_epoch (train_len E) (batch_size a) (num_gpus a) = inr spe /\
              select_lr_policy a spe = inr p.
Proof.
  intros H.
  refine (proj1 (safe_run_events E
     (fun ev => match ev with
             | ECall (CTrain s p o n l) =>
                 s = Train /\ o = optimizer_kind a /\ n = num_epochs a /\ l = lr a /\
                 exists spe,
                   steps_per_epoch (train_len E) (batch_size a) (num_gpus a) = inr spe /\
                   select_lr_policy a spe = inr p
             | _ => True
             end) (fun _ => True) a _) _ H).
  unfold_program. safe_run.
  all: cbn; intros; subst; repeat split; eauto.
Qed.

Lemma train_call_args_witness :
  In (ECall (CTrain Train (WarmupAnnealing 438 0.1%float) "adam" 1 5e-5%float))
     (fst (run sample_env default_args)) /\
  (Train = Train /\ "adam" = optimizer_kind default_args /\
   1 = num_epochs default_args /\ 5e-5%float = lr default_args /\
   exists spe, steps_per_epoch (train_len sample_env) (batch_size default_args)
                 (num_gpus default_args) = inr spe /\
               select_lr_policy default_args spe = inr (WarmupAnnealing 438 0.1%float)).
Proof.
  assert (H : In (ECall (CTrain Train (WarmupAnnealing 438 0.1%float) "adam" 1 5e-5%float))
                 (fst (run sample_env default_args))) by (vm_compute; tauto).
  split; [exact H | exact (train_call_args sample_env default_args _ _ _ _ _ H)].
Defined.

(** ** The tensorboard writer (lines 48-53, 150-168) *)

Lemma setup_tensorboard_result (E : env) (a : args) (tr tr' : list event)
    (tb : bool) (tok : tokenizer) :
  setup E a tr = (tr', inr (tb, tok)) ->
  (tb = true <-> raises E CImportTensorboardX = None /\
                 raises E (CSummaryWriter (tensorboard_filename a)) = None).
Proof.
  unfold_script. split_run.
  all: intros H; cbn in H; try discriminate H.
  all: injection H; intros; subst; intuition congruence.
Qed.

(** [SummaryWriter] is created with [--tensorboard_filename], and only
    once the import of tensorboardX has succeeded.  Both callbacks get a
    writer exactly when neither the import nor [SummaryWriter] raised;
    otherwise (the [ModuleNotFoundError] was caught) they get [None]. *)
Theorem tensorboard_writer (E : env) (a : args) :
  (forall f, In (ECall (CSummaryWriter f)) (fst (run E a)) ->
     f = tensorboard_filename a /\ raises E CImportTensorboardX = None) /\
  (forall h, In (ECall (CSimpleLossLoggerCallback h)) (fst (run E a)) ->
     (h = true <-> raises E CImportTensorboardX = None /\
                   raises E (CSummaryWriter (tensorboard_filename a)) = None)) /\
  (forall h o s, In (ECall (CEvaluatorCallback h o s)) (fst (run E a)) ->
     (h = true <-> raises E CImportTensorboardX = None /\
                   raises E (CSummaryWriter (tensorboard_filename a)) = None)).
Proof.
  set (TB := fun h : bool => h = true <-> raises E CImportTensorboardX = None /\
               raises E (CSummaryWriter (tensorboard_filename a)) = None).
  assert (Hs : safe
    (fun ev => match ev with
            | ECall (CSummaryWriter f) =>
                f = tensorboard_filename a /\ raises E CImportTensorboardX = None
            | ECall (CSimpleLossLoggerCallback h) => TB h
            | ECall (CEvaluatorCallback h _ _) => TB h
            | _ => True
            end) (fun _ => True) (script E a)).
  { unfold script. apply safe_bind with (R := fun r => TB (fst r)).
    - apply safe_result.
      + unfold setup. safe_run. all: cbn; intros; repeat split; assumption.
      + intros tr tr' [tb tok] Hx. exact (setup_tensorboard_result E a tr tr' tb tok Hx).
    - intros [tb tok] Htb. cbn in Htb. unfold pad_vocab, pipeline. safe_run.
      all: cbn; intros; first [exact I | exact Htb]. }
  destruct (safe_run_events E _ _ a Hs) as [Hev _].
  split; [| split].
  - intros f H. exact (Hev _ H).
  - intros h H. exact (Hev _ H).
  - intros h o s H. exact (Hev _ H).
Qed.

Lemma tensorboard_writer_witness :
  In (ECall (CSimpleLossLoggerCallback false)) (fst (run no_tensorboard_env default_args)) /\
  (false = true <-> raises no_tensorboard_env CImportTensorboardX = None /\
     raises no_tensorboard_env (CSummaryWriter (tensorboard_filename default_args)) = None).
Proof.
  assert (H : In (ECall (CSimpleLossLoggerCallback false))
                 (fst (run no_tensorboard_env default_args))) by (vm_compute; tauto).
  split; [exact H |].
  exact (proj1 (proj2 (tensorboard_writer no_tensorboard_env default_args)) _ H).
Defined.

(** ** A zero divisor (line 157) *)

Lemma steps_per_epoch_zero (n b g : Z) :
  b * g = 0 -> steps_per_epoch n b g = inl (ZeroDivisionError "division by zero").
Proof.
  intros H. unfold steps_per_epoch, py_truediv. rewrite H. reflexivity.
Qed.

(** With [--batch_size 0] or [--num_gpus 0] the run never trains: it does
    not print [steps_per_epoch], register the evaluation callback, build a
    schedule or call the driver, and it does not succeed. *)
Theorem zero_divisor_never_trains (E : env) (a : args) :
  batch_size a * num_gpus a = 0 ->
  (forall ev, In ev (fst (run E a)) -> needs_steps ev = false) /\
  snd (run E a) <> inr tt.
Proof.
  intros Hz.
  assert (Hs : safe (fun ev => needs_steps ev = false) (fun _ => False) (script E a)).
  { unfold_program. safe_run.
    all: cbn; intros; try reflexivity; try exact I.
    all: match goal with
         | H : steps_per_epoch _ _ _ = inr _ |- _ =>
             rewrite (steps_per_epoch_zero _ _ _ Hz) in H; discriminate H
         end. }
  destruct (safe_run_events E _ _ a Hs) as [Hev Hres].
  split; [exact Hev | intros H; exact (Hres tt H)].
Qed.

Lemma zero_divisor_never_trains_witness :
  batch_size no_gpu_args * num_gpus no_gpu_args = 0 /\
  ((forall ev, In ev (fst (run sample_env no_gpu_args)) -> needs_steps ev = false) /\
   snd (run sample_env no_gpu_args) <> inr tt).
Proof.
  assert (H : batch_size no_gpu_args * num_gpus no_gpu_args = 0) by reflexivity.
  split; [exact H | exact (zero_divisor_never_trains sample_env no_gpu_args H)].
Defined.

(** ** Arguments that do not matter *)

(** [--weight_decay] is parsed and never used: the run does not depend on
    it. *)
Theorem weight_decay_unused (E : env) (a : args) (w : float) :
  run E (with_weight_decay w a) = run E a.
Proof. destruct a; reflexivity. Qed.

(** Without [--bert_checkpoint], [--bert_config] is not used. *)
Theorem bert_config_unused (E : env) (a : args) (c : option string) :
  bert_checkpoint a = None -> run E (with_bert_config c a) = run E a.
Proof. intros H. destruct a; cbn in H; subst; reflexivity. Qed.

Lemma bert_config_unused_witness :
  bert_checkpoint default_args = None /\
  run sample_env (with_bert_config (Some "bert_config.json") default_args) =
    run sample_env default_args.
Proof.
  assert (H : bert_checkpoint default_args = None) by reflexivity.
  split; [exact H | exact (bert_config_unused sample_env default_args _ H)].
Defined.

(** [--lr_warmup_proportion] is used only by the [lr_warmup] policy. *)
Theorem warmup_proportion_unused (E : env) (a : args) (r : float) :
  lr_policy a <> "lr_warmup" ->
  run E (with_lr_warmup_proportion r a) = run E a.
Proof.
  intros H. apply String.eqb_neq in H.
  destruct a; cbn in H.
  unfold run, script, pipeline, select_lr_policy. cbn.
  rewrite H. reflexivity.
Qed.

Lemma warmup_proportion_unused_witness :
  lr_policy poly_args <> "lr_warmup" /\
  run sample_env (with_lr_warmup_proportion 0.5%float poly_args) =
    run sample_env poly_args.
Proof.
  assert (H : lr_policy poly_args <> "lr_warmup") by discriminate.
  split; [exact H | exact (warmup_proportion_unused sample_env poly_args _ H)].
Defined.

(** ** [int(n / d)] for any signs (line 157) *)

Lemma py_truediv_sign (n d : Z) : d <> 0 -> n <> 0 ->
  py_truediv n d =
    match py_truediv (Z.abs n) (Z.abs d) with
    | inl x => inl x
    | inr f => inr (if xorb (n <? 0) (d <? 0) then PyFloat (- fmant f) (fexp f) else f)
    end.
Proof.
  intros Hd Hn. unfold py_truediv.
  rewrite !Z.abs_idemp.
  destruct (Z.eqb_spec d 0); [contradiction |].
  destruct (Z.eqb_spec (Z.abs d) 0); [lia |].
  destruct (Z.eqb_spec n 0); [contradiction |].
  destruct (Z.eqb_spec (Z.abs n) 0); [lia |].
  destruct (mag_div (Z.abs n) (Z.abs d)) as [m e].
  destruct ((0 <=? e) && (2 ^ 1024 <=? m * 2 ^ e)); [reflexivity |].
  replace (Z.abs n <? 0) with false by (symmetry; apply Z.ltb_ge; lia).
  replace (Z.abs d <? 0) with false by (symmetry; apply Z.ltb_ge; lia).
  cbn. destruct (xorb (n <? 0) (d <? 0)); reflexivity.
Qed.

Lemma py_int_neg (f : pyfloat) : py_int (PyFloat (- fmant f) (fexp f)) = - py_int f.
Proof.
  unfold py_int; cbn. destruct (Z.leb_spec 0 (fexp f)).
  - ring.
  - apply Z.quot_opp_l. apply Z.pow_nonzero; lia.
Qed.

(** [steps_per_epoch] is [int()] of a float quotient, so for a training set
    of fewer than [2^53] examples it is the quotient truncated toward zero,
    whatever the signs of [--batch_size] and [--num_gpus]: with
    [batch_size * num_gpus = -2] and seven examples it is [-3], not the
    floor [-4]. *)
Theorem steps_per_epoch_trunc (n b g : Z) :
  Z.abs n < 2 ^ 53 -> b * g <> 0 ->
  steps_per_epoch n b g = inr (Z.quot n (b * g)).
Proof.
  intros Hn Hd. unfold steps_per_epoch. remember (b * g) as d eqn:Hdef. clear Hdef.
  destruct (Z.eqb_spec n 0) as [-> | Hn0].
  { unfold py_truediv.
    destruct (Z.eqb_spec d 0); [contradiction |]. cbn.
    rewrite ?Z.quot_0_l by exact Hd. reflexivity. }
  pose proof (steps_per_epoch_exact (Z.abs n) (Z.abs d) 1
                ltac:(lia) ltac:(lia) ltac:(lia)) as Hpos.
  unfold steps_per_epoch in Hpos. rewrite Z.mul_1_r in Hpos.
  rewrite (py_truediv_sign n d Hd Hn0).
  destruct (py_truediv (Z.abs n) (Z.abs d)) as [x | f]; [discriminate |].
  injection Hpos as Hf. f_equal.
  assert (Hq : Z.quot (Z.abs n) (Z.abs d) = Z.abs n / Z.abs d)
    by (apply Z.quot_div_nonneg; lia).
  destruct (Z.ltb_spec n 0) as [Hneg | Hnn];
  destruct (Z.ltb_spec d 0) as [Hdneg | Hdnn]; cbn [xorb];
    rewrite ?py_int_neg, Hf, <- Hq.
  all: remember (Z.abs n) as an; remember (Z.abs d) as ad.
  - assert (n = - an) by lia. assert (d = - ad) by lia. subst n d.
    rewrite Z.quot_opp_opp by lia. reflexivity.
  - assert (n = - an) by lia. assert (d = ad) by lia. subst n d.
    rewrite Z.quot_opp_l by lia. reflexivity.
  - assert (n = an) by lia. assert (d = - ad) by lia. subst n d.
    rewrite Z.quot_opp_r by lia. reflexivity.
  - assert (n = an) by lia. assert (d = ad) by lia. subst n d. reflexivity.
Qed.

Lemma steps_per_epoch_trunc_witness :
  Z.abs 7 < 2 ^ 53 /\ -2 * 1 <> 0 /\ steps_per_epoch 7 (-2) 1 = inr (-3).
Proof.
  split; [lia | split; [lia |]].
  exact (steps_per_epoch_trunc 7 (-2) 1 ltac:(lia) ltac:(lia)).
Defined.

(** ** The "Tensorboard is not available." line (line 53) *)

Lemma tensorboard_body_raises (E : env) (f : string) (tr tr' : list event) (x : exn) :
  (call_ext E CImportTensorboardX ;; call_ext E (CSummaryWriter f) ;; ret true) tr =
    (tr', inl x) ->
  raises E CImportTensorboardX = Some x \/
  (raises E CImportTensorboardX = None /\ raises E (CSummaryWriter f) = Some x).
Proof.
  unfold bind, call_ext, ret.
  destruct (raises E CImportTensorboardX) as [e |] eqn:H1; cbn.
  - intros H. injection H as _ <-. left; reflexivity.
  - destruct (raises E (CSummaryWriter f)) as [e |] eqn:H2; cbn.
    + intros H. injection H as _ <-. right; split; reflexivity.
    + discriminate.
Qed.

(** The script prints "Tensorboard is not available." only when a
    [ModuleNotFoundError] was raised by the tensorboardX import, or, the
    import succeeding, by [SummaryWriter] on the run's own
    [tensorboard_filename]. *)
Theorem tensorboard_message (E : env) (a : args) :
  In (EPrint "Tensorboard is not available.") (fst (run E a)) ->
  exists x, is_ModuleNotFoundError x = true /\
    (raises E CImportTensorboardX = Some x \/
     (raises E CImportTensorboardX = None /\
      raises E (CSummaryWriter (tensorboard_filename a)) = Some x)).
Proof.
  intros H.
  refine (proj1 (safe_run_events E
     (fun ev => ev = EPrint "Tensorboard is not available." ->
             exists x, is_ModuleNotFoundError x = true /\
               (raises E CImportTensorboardX = Some x \/
                (raises E CImportTensorboardX = None /\
                 raises E (CSummaryWriter (tensorboard_filename a)) = Some x)))
     (fun _ => True) a _) _ H eq_refl).
  unfold_program. safe_run.
  all: cbn; intros; try discriminate; try exact I.
  all: match goal with
       | Hb : _ = (_, inl ?x) |- _ =>
           apply tensorboard_body_raises in Hb; exists x; split; [assumption | exact Hb]
       end.
Qed.

Lemma tensorboard_message_witness :
  In (EPrint "Tensorboard is not available.") (fst (run no_tensorboard_env default_args)) /\
  exists x, is_ModuleNotFoundError x = true /\
    (raises no_tensorboard_env CImportTensorboardX = Some x \/
     (raises no_tensorboard_env CImportTensorboardX = None /\
      raises no_tensorboard_env (CSummaryWriter (tensorboard_filename default_args)) = Some x)).
Proof.
  assert (H : In (EPrint "Tensorboard is not available.")
                 (fst (run no_tensorboard_env default_args))) by (vm_compute; tauto).
  split; [exact H | exact (tensorboard_message no_tensorboard_env default_args H)].
Defined.
